(* Shallow embedding of the Office2PDF Node SDK client (sdk-node/src/utils.ts,
   errors.ts, types.ts): status mapping, error normalisation, response
   handling, parameter validation, the constructor and the retry loop of
   [convert].

   JavaScript numbers that the claims compare (the retry bound) are modelled
   as rationals extended with NaN; the backoff arithmetic is done in
   rounded double arithmetic; HTTP statuses are integers.  Strings are
   Rocq strings (one ascii per UTF-16 code unit of the Latin-1 range); bytes
   are lists of [Byte.byte]. *)

From Stdlib Require Import String Ascii List ZArith QArith Qround Qpower Lia Lqa Bool.
Import ListNotations.
Open Scope string_scope.
Set Warnings "-register-all".

(* ------------------------------------------------------------------------- *)
(** * String helpers (JavaScript string operations used by the client) *)

Module JsString.

(** Characters removed by [String.prototype.trim] within the Latin-1 range:
    TAB, LF, VT, FF, CR, SPACE and NO-BREAK SPACE. *)
Definition is_ws (c : ascii) : bool :=
  let n := nat_of_ascii c in
  (Nat.eqb n 9 || Nat.eqb n 10 || Nat.eqb n 11 || Nat.eqb n 12
   || Nat.eqb n 13 || Nat.eqb n 32 || Nat.eqb n 160)%bool.

Fixpoint trim_start (s : string) : string :=
  match s with
  | EmptyString => EmptyString
  | String c r => if is_ws c then trim_start r else s
  end.

Definition trim_end (s : string) : string :=
  string_of_list_ascii
    (rev (list_ascii_of_string (trim_start
       (string_of_list_ascii (rev (list_ascii_of_string s)))))).

(** [s.trim()] *)
Definition trim (s : string) : string := trim_end (trim_start s).

(** [s.endsWith(suffix)] *)
Definition endsWith (s suffix : string) : bool :=
  let n := String.length s in
  let k := String.length suffix in
  (Nat.leb k n && String.eqb (substring (n - k) k s) suffix)%bool.

(** [s.slice(0, -1)] *)
Definition slice_drop_last (s : string) : string :=
  substring 0 (String.length s - 1) s.

(** [s.includes(needle)] *)
Fixpoint includes (s needle : string) : bool :=
  (String.prefix needle s ||
   match s with
   | EmptyString => false
   | String _ r => includes r needle
   end)%bool.

(** ASCII lower-casing, used for case-insensitive header names. *)
Definition lower_char (c : ascii) : ascii :=
  let n := nat_of_ascii c in
  if (Nat.leb 65 n && Nat.leb n 90)%bool then ascii_of_nat (n + 32) else c.

Fixpoint lower (s : string) : string :=
  match s with
  | EmptyString => EmptyString
  | String c r => String (lower_char c) (lower r)
  end.

(** Decimal rendering of a natural number, as [`${n}`] does. *)
Fixpoint digits_rev (fuel : nat) (n : N) : list ascii :=
  match fuel with
  | O => []
  | S f =>
      let d := ascii_of_N (48 + N.modulo n 10) in
      if N.ltb n 10 then [d] else d :: digits_rev f (N.div n 10)
  end.

Definition of_N (n : N) : string :=
  string_of_list_ascii (rev (digits_rev (S (N.size_nat n)) n)).

(** [`${z}`] for an integer. *)
Definition of_Z (z : Z) : string :=
  match z with
  | Zneg p => String "-" (of_N (Npos p))
  | _ => of_N (Z.to_N z)
  end.

End JsString.

(* ------------------------------------------------------------------------- *)
(** * JSON values and thrown JavaScript values *)

(** A value produced by [JSON.parse] (what [res.json()] resolves to). *)
Inductive json : Type :=
| JNull
| JBool (b : bool)
| JNumber (q : Q)
| JString (s : string)
| JArray (items : list json)
| JObject (fields : list (string * json)).

(** Property read [j?.[key]] on a parsed JSON value: only objects carry the
    properties the client reads; with duplicate keys [JSON.parse] keeps the
    last one. *)
Definition get_prop (j : json) (key : string) : option json :=
  match j with
  | JObject fields =>
      option_map snd (find (fun kv => String.eqb (fst kv) key) (rev fields))
  | _ => None
  end.

(** [typeof j?.[key] === "string" ? j[key] : undefined] *)
Definition string_prop (j : json) (key : string) : option string :=
  match get_prop j key with
  | Some (JString s) => Some s
  | _ => None
  end.

(** The error codes of [Office2PDFErrorCode] (errors.ts). *)
Inductive Office2PDFErrorCode : Type :=
| UNAUTHORIZED
| FORBIDDEN
| NOT_FOUND
| RATE_LIMITED
| QUOTA_EXCEEDED
| INVALID_REQUEST
| SERVER_ERROR
| NETWORK_ERROR
| TIMEOUT
| UNKNOWN.

Definition code_eqb (a b : Office2PDFErrorCode) : bool :=
  match a, b with
  | UNAUTHORIZED, UNAUTHORIZED | FORBIDDEN, FORBIDDEN | NOT_FOUND, NOT_FOUND
  | RATE_LIMITED, RATE_LIMITED | QUOTA_EXCEEDED, QUOTA_EXCEEDED
  | INVALID_REQUEST, INVALID_REQUEST | SERVER_ERROR, SERVER_ERROR
  | NETWORK_ERROR, NETWORK_ERROR | TIMEOUT, TIMEOUT | UNKNOWN, UNKNOWN => true
  | _, _ => false
  end.

(** The [details] payload: a parsed JSON body, the name of an [Error]
    ([{ name: err.name }]), or an arbitrary thrown value. *)
Inductive Details : Type :=
| DJson (j : json)
| DName (name : string).

(** [class Office2PDFError] (errors.ts). *)
Record Office2PDFError : Type := mkError {
  code : Office2PDFErrorCode;
  message : string;
  status : option Z;
  requestId : option string;
  details : option Details
}.

(** A thrown JavaScript value, as [normalizeError] distinguishes them. *)
Inductive Thrown : Type :=
| TO2P (e : Office2PDFError)                 (* instanceof Office2PDFError *)
| TDOMException (name msg : string)          (* instanceof DOMException (and Error) *)
| TError (name msg : string)                 (* any other instanceof Error *)
| TValue (v : json).                         (* a thrown non-Error value *)

(* ------------------------------------------------------------------------- *)
(** * Status helpers (utils.ts) *)

(** [isRetryAbleStatus] *)
Definition isRetryAbleStatus (status : Z) : bool :=
  (Z.eqb status 408 || Z.eqb status 429
   || (Z.leb 500 status && Z.leb status 599))%bool.

(** The literal table [map] of [mapStatusToCode]. *)
Definition status_map (status : Z) : option Office2PDFErrorCode :=
  if Z.eqb status 401 then Some UNAUTHORIZED
  else if Z.eqb status 403 then Some FORBIDDEN
  else if Z.eqb status 404 then Some NOT_FOUND
  else if Z.eqb status 429 then Some RATE_LIMITED
  else if Z.eqb status 413 then Some QUOTA_EXCEEDED
  else None.

(** [mapStatusToCode] *)
Definition mapStatusToCode (status : Z) : Office2PDFErrorCode :=
  match status_map status with
  | Some c => c
  | None =>
      if (Z.leb 400 status && Z.ltb status 500)%bool then INVALID_REQUEST
      else if Z.leb 500 status then SERVER_ERROR
      else UNKNOWN
  end.

(* ------------------------------------------------------------------------- *)
(** * HTTP responses (undici [Response]) *)

(** Header list as received; [Headers.get] matches names case-insensitively
    and joins repeated values with [", "]. *)
Definition Headers := list (string * string).

Fixpoint join_values (vs : list string) : string :=
  match vs with
  | [] => ""
  | [v] => v
  | v :: rest => v ++ ", " ++ join_values rest
  end.

(** [res.headers.get(name)]: [None] stands for [null]. *)
Definition headers_get (h : Headers) (name : string) : option string :=
  let vs := map snd (filter (fun kv => String.eqb (JsString.lower (fst kv))
                                                  (JsString.lower name)) h) in
  match vs with
  | [] => None
  | _ => Some (join_values vs)
  end.

Definition bytes := list Byte.byte.

Record Response : Type := mkResponse {
  res_status : Z;
  res_headers : Headers;
  (** [res.body]: [None] when the response has no body stream *)
  res_body : option bytes;
  (** the outcome of [JSON.parse] on the body text: [None] when it throws *)
  res_json : option json
}.

(** [res.ok] *)
Definition res_ok (res : Response) : bool :=
  (Z.leb 200 (res_status res) && Z.leb (res_status res) 299)%bool.

(** [safeReadJson]: [JNull] stands for the [null] it returns. *)
Definition safeReadJson (res : Response) : json :=
  let ct := match headers_get (res_headers res) "content-type" with
            | Some v => v
            | None => ""
            end in
  if negb (JsString.includes ct "application/json") then JNull
  else match res_json res with
       | Some j => j
       | None => JNull
       end.

(** [getRequestId] *)
Definition getRequestId (res : Response) : option string :=
  match headers_get (res_headers res) "x-request-id" with
  | Some v => Some v
  | None => headers_get (res_headers res) "cf-ray"
  end.

(* ------------------------------------------------------------------------- *)
(** * Requests and results (types.ts) *)

Record ConvertParams : Type := mkParams {
  filePath : string;
  fileName : option string;
  output : option string;
  password : option string;
  (** whether a caller [AbortSignal] is supplied; its state at each attempt is
      part of the environment *)
  signal : bool;
  downloadToPath : option string;
  asWebStream : option bool
}.

(** JavaScript truthiness of the optional fields. *)
Definition truthy_string (s : option string) : bool :=
  match s with
  | Some v => negb (String.eqb v "")
  | None => false
  end.

Definition truthy_bool (b : option bool) : bool :=
  match b with
  | Some true => true
  | _ => false
  end.

Inductive ConvertResult : Type :=
| KBuffer (buffer : bytes) (contentType : string) (requestId : option string)
| KDownloaded (path : string) (contentType : string) (requestId : option string)
| KStream (stream : bytes) (contentType : string) (requestId : option string).

Definition result_kind (r : ConvertResult) : string :=
  match r with
  | KBuffer _ _ _ => "buffer"
  | KDownloaded _ _ _ => "downloaded"
  | KStream _ _ _ => "stream"
  end.

Definition result_contentType (r : ConvertResult) : string :=
  match r with
  | KBuffer _ ct _ | KDownloaded _ ct _ | KStream _ ct _ => ct
  end.

Definition result_requestId (r : ConvertResult) : option string :=
  match r with
  | KBuffer _ _ rid | KDownloaded _ _ rid | KStream _ _ rid => rid
  end.

(** A fallible asynchronous step: it returns a value or throws. *)
Definition Attempt (A : Type) := (A + Thrown)%type.

(** [handleResponse].  [body_io] is the outcome of consuming the body
    ([res.arrayBuffer()] or [streamToFile]): [None] on success, or the
    value it throws. *)
Definition handleResponse (res : Response) (params : ConvertParams)
    (body_io : option Thrown) : Attempt ConvertResult :=
  let rid := getRequestId res in
  if negb (res_ok res) then
    let j := safeReadJson res in
    let msg := match string_prop j "message" with
               | Some m => m
               | None =>
                   match string_prop j "error_description" with
                   | Some m => m
                   | None => "Request failed with status "
                             ++ JsString.of_Z (res_status res)
                   end
               end in
    inr (TO2P {| code := mapStatusToCode (res_status res);
                 message := msg;
                 status := Some (res_status res);
                 requestId := rid;
                 details := match j with JNull => None | _ => Some (DJson j) end |})
  else
    let ct := match headers_get (res_headers res) "content-type" with
              | Some v => v
              | None => "application/pdf"
              end in
    let empty_body := TO2P {| code := UNKNOWN; message := "Empty response body";
                              status := None; requestId := rid;
                              details := None |} in
    if truthy_bool (asWebStream params) then
      match res_body res with
      | None => inr empty_body
      | Some b => inl (KStream b ct rid)
      end
    else if truthy_string (downloadToPath params) then
      match res_body res with
      | None => inr empty_body
      | Some _ =>
          match body_io with
          | Some e => inr e
          | None =>
              inl (KDownloaded (match downloadToPath params with
                                | Some d => d | None => "" end) ct rid)
          end
      end
    else
      match body_io with
      | Some e => inr e
      | None =>
          inl (KBuffer (match res_body res with Some b => b | None => [] end)
                       ct rid)
      end.

(* ------------------------------------------------------------------------- *)
(** * Error normalisation and the retry predicate *)

Definition timeout_error : Office2PDFError :=
  {| code := TIMEOUT; message := "Request timed out"; status := None;
     requestId := None; details := None |}.

(** [normalizeError] *)
Definition normalizeError (err : Thrown) : Office2PDFError :=
  match err with
  | TO2P e => e
  | TDOMException name msg =>
      if String.eqb name "AbortError" then timeout_error
      else {| code := NETWORK_ERROR; message := msg; status := None;
              requestId := None; details := Some (DName name) |}
  | TError name msg =>
      {| code := NETWORK_ERROR; message := msg; status := None;
         requestId := None; details := Some (DName name) |}
  | TValue v =>
      {| code := UNKNOWN; message := "Unknown error"; status := None;
         requestId := None; details := Some (DJson v) |}
  end.

(** [isRetryAble]; [error.status &&] rejects an absent or zero status. *)
Definition isRetryAble (error : Office2PDFError) : bool :=
  if (code_eqb (code error) TIMEOUT || code_eqb (code error) NETWORK_ERROR)%bool
  then true
  else match status error with
       | Some s => (negb (Z.eqb s 0) && isRetryAbleStatus s)%bool
       | None => false
       end.

(* ------------------------------------------------------------------------- *)
(** * Double arithmetic of [getBackoffMs] and [sleep] *)

(** A non-negative IEEE-754 binary64 value: finite (as a rational),
    [Infinity] or [NaN]. *)
Inductive Double : Type :=
| DFin (x : Q)
| DInf
| DNaN.

(** [floor (log2 x)] for [x > 0]: [Z.log2] of numerator and denominator
    gives it or one more. *)
Definition qlog2 (x : Q) : Z :=
  let l := (Z.log2 (Qnum x) - Z.log2 (Zpos (Qden x)))%Z in
  if Qle_bool (Qpower 2 l) x then l else (l - 1)%Z.

(** Rounding of a non-negative rational to an integer, ties to even. *)
Definition round_half_even (y : Q) : Z :=
  let f := Qfloor y in
  match Qcompare (y - inject_Z f) (1 # 2) with
  | Lt => f
  | Gt => (f + 1)%Z
  | Eq => if Z.even f then f else (f + 1)%Z
  end.

(** Rounding of a non-negative rational to the nearest double, ties to even:
    a 53-bit significand, the exponent of its last bit at least -1074
    (subnormals), and [Infinity] when the rounded value reaches [2^1024]. *)
Definition round_double (x : Q) : Double :=
  if Qle_bool x 0 then DFin 0 else
  let s := Z.max (qlog2 x - 52) (-1074) in
  let y := (inject_Z (round_half_even (x / Qpower 2 s)) * Qpower 2 s)%Q in
  if Qle_bool (Qpower 2 1024) y then DInf else DFin y.

(** [a * b] and [a + b] on non-negative doubles. *)
Definition js_mul (a b : Double) : Double :=
  match a, b with
  | DFin x, DFin y => round_double (x * y)
  | DNaN, _ | _, DNaN => DNaN
  | DFin x, DInf | DInf, DFin x => if Qeq_bool x 0 then DNaN else DInf
  | DInf, DInf => DInf
  end.

Definition js_add (a b : Double) : Double :=
  match a, b with
  | DFin x, DFin y => round_double (x + y)
  | DNaN, _ | _, DNaN => DNaN
  | _, _ => DInf
  end.

(** [Math.floor] *)
Definition js_floor (a : Double) : Double :=
  match a with
  | DFin x => DFin (inject_Z (Qfloor x))
  | _ => a
  end.

(** [Math.pow(2, n)] for a natural [n]: the exact power, rounded
    ([Infinity] from [n = 1024]). *)
Definition math_pow2 (n : nat) : Double := round_double (Qpower 2 (Z.of_nat n)).

(** [getBackoffMs]: [300 * Math.pow(2, attempt) + Math.floor(Math.random()
    * 150)], where [random] is the value of the [Math.random()] call it
    makes. *)
Definition getBackoffMs (attempt : nat) (random : Q) : Double :=
  let base := js_mul (DFin 300) (math_pow2 attempt) in
  let jitter := js_floor (js_mul (DFin random) (DFin 150)) in
  js_add base jitter.

(** Node's [TIMEOUT_MAX]. *)
Definition TIMEOUT_MAX : Z := 2147483647.

(** [sleep(ms)] is [setTimeout(r, ms)]: Node replaces a delay that is not a
    number in [[1, TIMEOUT_MAX]] by 1; the timer waits the whole number of
    milliseconds of the delay. *)
Definition timer_delay (ms : Double) : Z :=
  match ms with
  | DFin x =>
      if (Qle_bool 1 x && Qle_bool x (inject_Z TIMEOUT_MAX))%bool then Qfloor x
      else 1%Z
  | _ => 1%Z
  end.

(* ------------------------------------------------------------------------- *)
(** * Parameter validation ([validateParams]) *)

(** [path.dirname] (POSIX flavour of Node's [path] module).  [scan] walks the
    indices [i = length-1 .. 1], as the loop of the source does. *)
Fixpoint dirname_scan (cs : list ascii) (i : nat) (matchedSlash : bool)
    : option nat :=
  match cs with
  | [] => None
  | c :: rest =>
      if Ascii.eqb c "/" then
        if negb matchedSlash then Some i
        else dirname_scan rest (pred i) matchedSlash
      else dirname_scan rest (pred i) false
  end.

Definition dirname (p : string) : string :=
  match list_ascii_of_string p with
  | [] => "."
  | c0 :: tl =>
      let hasRoot := Ascii.eqb c0 "/" in
      match dirname_scan (rev tl) (String.length p - 1) true with
      | None => if hasRoot then "/" else "."
      | Some end_ =>
          if (hasRoot && Nat.eqb end_ 1)%bool then "//"
          else substring 0 end_ p
      end
  end.

(** The file-system checks made through [fs.promises.access]. *)
Record FileSystem : Type := mkFs {
  fs_readable : string -> bool;   (* access(p, R_OK) resolves *)
  fs_writable : string -> bool    (* access(p, W_OK) resolves *)
}.

Definition invalid_request (msg : string) : Office2PDFError :=
  {| code := INVALID_REQUEST; message := msg; status := None;
     requestId := None; details := None |}.

(** [validateParams]: [None] when it resolves, [Some e] when it throws [e]. *)
Definition validateParams (fs : FileSystem) (params : ConvertParams)
    : option Office2PDFError :=
  if String.eqb (JsString.trim (filePath params)) "" then
    Some (invalid_request "filePath is required")
  else if negb (fs_readable fs (filePath params)) then
    Some (invalid_request ("File not found or not readable: " ++ filePath params))
  else if (truthy_bool (asWebStream params)
           && truthy_string (downloadToPath params))%bool then
    Some (invalid_request "Cannot use asWebStream with downloadToPath")
  else if truthy_string (downloadToPath params) then
    let dir := dirname (match downloadToPath params with
                        | Some d => d | None => "" end) in
    if (negb (String.eqb dir "") && negb (String.eqb dir "."))%bool then
      if negb (fs_writable fs dir) then
        Some (invalid_request ("Download directory not writable: " ++ dir))
      else None
    else None
  else None.

(* ------------------------------------------------------------------------- *)
(** * Abort signals, the transport and [sendConvertRequest] *)

(** State of an [AbortSignal]; an aborted signal keeps its abort reason
    ([controller.abort()] with no argument stores an "AbortError"
    [DOMException]). *)
Inductive SignalState : Type :=
| NotAborted
| Aborted (reason : Thrown).

Definition default_abort_reason : Thrown :=
  TDOMException "AbortError" "This operation was aborted".

Definition signal_aborted (s : SignalState) : bool :=
  match s with Aborted _ => true | NotAborted => false end.

(** [mergeAbortSignals]: the merged signal, [None] for [undefined].  A fresh
    [AbortController] is not aborted when it is created. *)
Definition mergeAbortSignals (signals : list (option SignalState))
    : option SignalState :=
  let active := flat_map (fun o => match o with Some s => [s] | None => [] end)
                         signals in
  match active with
  | [] => None
  | [s] => Some s
  | _ =>
      match find signal_aborted active with
      | Some aborted => Some aborted
      | None => Some NotAborted
      end
  end.

(** What the transport does with one request whose signal was not already
    aborted: it answers, it fails, or the merged signal fires while the
    request is in flight (the timer, or the caller's signal through the
    merged controller; either way [abort()] is called without a reason). *)
Inductive Transport : Type :=
| TRespond (res : Response)
| TReject (err : Thrown)
| TAbortInFlight.

(** JavaScript falsiness of a thrown value. *)
Definition thrown_falsy (t : Thrown) : bool :=
  match t with
  | TValue JNull | TValue (JBool false) | TValue (JString "") => true
  | TValue (JNumber q) => Qeq_bool q 0
  | _ => false
  end.

(** undici's [fetch] on a signal: an already aborted signal rejects at once
    with its abort reason (an "AbortError" [DOMException] when the reason is
    falsy); otherwise the transport decides. *)
Definition fetch (signal : option SignalState) (t : Transport)
    : Attempt Response :=
  match signal with
  | Some (Aborted r) =>
      inr (if thrown_falsy r then default_abort_reason else r)
  | _ =>
      match t with
      | TRespond res => inl res
      | TReject err => inr err
      | TAbortInFlight => inr default_abort_reason
      end
  end.

(** What the environment supplies for one attempt. *)
Record AttemptEnv : Type := mkAttemptEnv {
  (** outcome of [fileFromPath(params.filePath, params.fileName)], which
      [stat]s the file: [Some err] when it rejects with [err] *)
  ae_file : option Thrown;
  (** state of the caller's [params.signal] when the attempt starts *)
  ae_signal : SignalState;
  ae_transport : Transport;
  (** outcome of consuming the body ([arrayBuffer] or [streamToFile]) *)
  ae_body_io : option Thrown
}.

(** [sendConvertRequest]: [await this.buildFormData(params)] comes first
    and rejects when [fileFromPath] does; then the timeout controller is
    created fresh, so its signal is not aborted when merged. *)
Definition sendConvertRequest (params : ConvertParams) (ae : AttemptEnv)
    : Attempt ConvertResult :=
  match ae_file ae with
  | Some err => inr err
  | None =>
      let ext := if signal params then Some (ae_signal ae) else None in
      let merged := mergeAbortSignals [ext; Some NotAborted] in
      match fetch merged (ae_transport ae) with
      | inr err => inr err
      | inl res => handleResponse res params (ae_body_io ae)
      end
  end.

(* ------------------------------------------------------------------------- *)
(** * JavaScript numbers used as bounds *)

(** A finite JavaScript number (as a rational) or NaN.  An infinite bound,
    with which the loop need not terminate, is outside this model. *)
Inductive JsNumber : Type :=
| JsNum (q : Q)
| JsNaN.

(** [Math.max(0, x)] *)
Definition js_max0 (x : JsNumber) : JsNumber :=
  match x with
  | JsNaN => JsNaN
  | JsNum q => JsNum (if Qle_bool 0 q then q else 0)
  end.

(** [a <= x] and [a < x] for a loop counter [a]; comparisons with NaN are
    false. *)
Definition js_le (a : nat) (x : JsNumber) : bool :=
  match x with
  | JsNaN => false
  | JsNum q => Qle_bool (inject_Z (Z.of_nat a)) q
  end.

Definition js_lt (a : nat) (x : JsNumber) : bool :=
  match x with
  | JsNaN => false
  | JsNum q => negb (Qle_bool q (inject_Z (Z.of_nat a)))
  end.

(* ------------------------------------------------------------------------- *)
(** * The client and its constructor *)

Definition DEFAULT_BASE_URL : string := "https://api.office2pdf.app".
Definition DEFAULT_TIMEOUT_MS : JsNumber := JsNum (inject_Z 120000).
Definition DEFAULT_MAX_RETRIES : JsNumber := JsNum (inject_Z 2).

(** [Office2PDFClientOptions] *)
Record Office2PDFClientOptions : Type := mkOptions {
  opt_apiKey : string;
  opt_baseUrl : option string;
  opt_timeoutMs : option JsNumber;
  opt_userAgent : option string;
  opt_maxRetries : option JsNumber
}.

(** The private fields of an [Office2PDF] instance. *)
Record Office2PDF : Type := mkClient {
  apiKey : string;
  baseUrl : string;
  timeoutMs : JsNumber;
  userAgent : string;
  maxRetries : JsNumber
}.

(** [normalizeBaseUrl]: [baseUrl || DEFAULT_BASE_URL], trimmed, then one
    trailing slash removed. *)
Definition normalizeBaseUrl (baseUrl : option string) : string :=
  let url := JsString.trim (if truthy_string baseUrl then
                              match baseUrl with Some u => u | None => "" end
                            else DEFAULT_BASE_URL) in
  if JsString.endsWith url "/" then JsString.slice_drop_last url else url.

Definition opt_default {A} (o : option A) (d : A) : A :=
  match o with Some v => v | None => d end.

(** [new Office2PDF(opts)]: the instance, or the [Error] it throws. *)
Definition new_Office2PDF (opts : Office2PDFClientOptions) : Office2PDF + Thrown :=
  if String.eqb (JsString.trim (opt_apiKey opts)) "" then
    inr (TError "Error" "Office2PDF: apiKey is required")
  else
    inl {| apiKey := JsString.trim (opt_apiKey opts);
           baseUrl := normalizeBaseUrl (opt_baseUrl opts);
           timeoutMs := opt_default (opt_timeoutMs opts) DEFAULT_TIMEOUT_MS;
           userAgent := opt_default (opt_userAgent opts) "office2pdf-node";
           maxRetries := js_max0 (opt_default (opt_maxRetries opts)
                                              DEFAULT_MAX_RETRIES) |}.

(* ------------------------------------------------------------------------- *)
(** * [convert] and its retry loop *)

(** The environment of one [convert] call. *)
Record Env : Type := mkEnv {
  env_fs : FileSystem;
  (** what happens at attempt [n] *)
  env_attempt : nat -> AttemptEnv;
  (** the value returned by the [k]-th call of [Math.random()] *)
  env_random : nat -> Q
}.

(** Observable effects: an invocation of [sendConvertRequest] (the only
    place that reads the file and talks to the network) and a backoff
    [sleep], with the milliseconds its timer waits. *)
Inductive Event : Type :=
| EvSend (attempt : nat)
| EvSleep (ms : Z).

(** How control leaves the [for] loop: [return], [throw], or falling out of
    it with the current [lastError]. *)
Inductive LoopExit : Type :=
| LReturn (r : ConvertResult)
| LThrow (e : Office2PDFError)
| LFallOut (lastError : option Office2PDFError).

(** [for (let attempt = 0; attempt <= this.maxRetries; attempt++)].
    [draws] counts the [Math.random()] calls made so far.  [fuel] only bounds
    the recursion; [convert] passes more than the loop condition allows (see
    [loop_fuel_sufficient]). *)
Fixpoint convert_loop (c : Office2PDF) (params : ConvertParams) (env : Env)
    (fuel attempt draws : nat) (lastError : option Office2PDFError)
    : LoopExit * list Event :=
  match fuel with
  | O => (LFallOut lastError, [])
  | S fuel' =>
      if js_le attempt (maxRetries c) then
        match sendConvertRequest params (env_attempt env attempt) with
        | inl r => (LReturn r, [EvSend attempt])
        | inr err =>
            let normalized := normalizeError err in
            if (js_lt attempt (maxRetries c) && isRetryAble normalized)%bool then
              let ms := timer_delay (getBackoffMs attempt (env_random env draws)) in
              let (ex, tr) := convert_loop c params env fuel' (S attempt)
                                (S draws) (Some normalized) in
              (ex, EvSend attempt :: EvSleep ms :: tr)
            else (LThrow normalized, [EvSend attempt])
        end
      else (LFallOut lastError, [])
  end.

Definition loop_fuel (m : JsNumber) : nat :=
  match m with
  | JsNum q => S (S (Z.to_nat (Qfloor q)))
  | JsNaN => 1
  end.

Definition unexpected_failure : Office2PDFError :=
  {| code := UNKNOWN; message := "Unexpected conversion failure";
     status := None; requestId := None; details := None |}.

Inductive Outcome : Type :=
| Returned (r : ConvertResult)
| Threw (e : Office2PDFError).

(** [convert]: the outcome and the effects, in order. *)
Definition convert (c : Office2PDF) (params : ConvertParams) (env : Env)
    : Outcome * list Event :=
  match validateParams (env_fs env) params with
  | Some e => (Threw e, [])
  | None =>
      let (ex, tr) := convert_loop c params env (loop_fuel (maxRetries c)) 0 0
                        None in
      match ex with
      | LReturn r => (Returned r, tr)
      | LThrow e => (Threw e, tr)
      | LFallOut lastError =>
          (Threw (match lastError with Some e => e | None => unexpected_failure end),
           tr)
      end
  end.

Definition count_sends (tr : list Event) : nat :=
  length (filter (fun ev => match ev with EvSend _ => true | _ => false end) tr).

(* ------------------------------------------------------------------------- *)
(** * Evaluation checks *)

Example of_Z_502 : JsString.of_Z 502 = "502".
Proof. reflexivity. Qed.

Example dirname_examples :
  dirname "out.pdf" = "." /\ dirname "/out.pdf" = "/" /\
  dirname "/tmp/a/out.pdf" = "/tmp/a" /\ dirname "a/b/" = "a".
Proof. repeat split; reflexivity. Qed.

Example trim_example : JsString.trim " 	key 
" = "key".
Proof. reflexivity. Qed.

(* ------------------------------------------------------------------------- *)
(** * Basic facts *)

Lemma js_le_nat (a n : nat) :
  js_le a (JsNum (inject_Z (Z.of_nat n))) = Nat.leb a n.
Proof.
  unfold js_le, Qle_bool, inject_Z; simpl.
  rewrite !Z.mul_1_r.
  destruct (Nat.leb_spec a n); destruct (Z.leb_spec (Z.of_nat a) (Z.of_nat n));
    auto; lia.
Qed.

Lemma js_lt_nat (a n : nat) :
  js_lt a (JsNum (inject_Z (Z.of_nat n))) = Nat.ltb a n.
Proof.
  unfold js_lt, Qle_bool, inject_Z; simpl.
  rewrite !Z.mul_1_r.
  destruct (Nat.ltb_spec a n); destruct (Z.leb_spec (Z.of_nat n) (Z.of_nat a));
    simpl; auto; lia.
Qed.

Lemma loop_fuel_nat (n : nat) :
  loop_fuel (JsNum (inject_Z (Z.of_nat n))) = S (S n).
Proof.
  unfold loop_fuel. rewrite Qfloor_Z, Nat2Z.id. reflexivity.
Qed.

(** The fuel given by [convert] never decides the loop: at the last index it
    allows, the loop condition [attempt <= maxRetries] is already false. *)
Lemma loop_fuel_sufficient (q : Q) :
  js_le (S (Z.to_nat (Qfloor q))) (JsNum q) = false.
Proof.
  unfold js_le.
  destruct (Qle_bool _ q) eqn:E; [|reflexivity].
  apply Qle_bool_iff in E.
  pose proof (Qlt_floor q) as Hlt.
  exfalso.
  assert (Hz : (Qfloor q + 1 <= Z.of_nat (S (Z.to_nat (Qfloor q))))%Z) by lia.
  apply (Qlt_not_le _ _ Hlt).
  apply Qle_trans with (2 := E).
  rewrite <- Zle_Qle. exact Hz.
Qed.

Lemma js_max0_nonneg (x : JsNumber) :
  x <> JsNaN -> exists q, js_max0 x = JsNum q /\ (0 <= q)%Q.
Proof.
  destruct x as [q|]; [intros _ | congruence].
  simpl. destruct (Qle_bool 0 q) eqn:E.
  - exists q. split; [reflexivity|]. apply Qle_bool_iff. exact E.
  - exists 0. split; [reflexivity|]. apply Qle_refl.
Qed.

Lemma js_le_0 (q : Q) : (0 <= q)%Q -> js_le 0 (JsNum q) = true.
Proof. intros H. unfold js_le. apply Qle_bool_iff. exact H. Qed.

(* ------------------------------------------------------------------------- *)
(** * C1: HTTP status to error kind *)

(** C1 (as stated, refuted): a non-2xx status outside [400, 599] should give
    UNKNOWN, but status 600 gives SERVER_ERROR. *)
Lemma C1_status_600_server_error :
  exists e,
    handleResponse (mkResponse 600 [] None None)
      (mkParams "in.docx" None None None false None None) None = inr (TO2P e)
    /\ status e = Some 600%Z /\ code e = SERVER_ERROR /\ code e <> UNKNOWN.
Proof.
  eexists. split; [reflexivity|]. repeat split; discriminate.
Qed.

(** C1 (amended): every non-2xx response makes the attempt fail with an
    [Office2PDFError] that [normalizeError] keeps as it is, carrying the
    numeric status and the request-id; its kind is 401 UNAUTHORIZED,
    403 FORBIDDEN, 404 NOT_FOUND, 429 RATE_LIMITED, 413 QUOTA_EXCEEDED, any
    other status in [400, 499] INVALID_REQUEST, any status >= 500
    SERVER_ERROR and any status below 400 UNKNOWN. *)
Theorem C1_non_2xx_error_kind (res : Response) (params : ConvertParams)
    (body_io : option Thrown) :
  res_ok res = false ->
  exists e,
    handleResponse res params body_io = inr (TO2P e) /\
    normalizeError (TO2P e) = e /\
    status e = Some (res_status res) /\
    requestId e = getRequestId res /\
    (res_status res = 401 -> code e = UNAUTHORIZED)%Z /\
    (res_status res = 403 -> code e = FORBIDDEN)%Z /\
    (res_status res = 404 -> code e = NOT_FOUND)%Z /\
    (res_status res = 429 -> code e = RATE_LIMITED)%Z /\
    (res_status res = 413 -> code e = QUOTA_EXCEEDED)%Z /\
    ((400 <= res_status res <= 499)%Z ->
     ~ In (res_status res) [401; 403; 404; 413; 429]%Z ->
     code e = INVALID_REQUEST) /\
    ((500 <= res_status res)%Z -> code e = SERVER_ERROR) /\
    ((res_status res < 400)%Z -> code e = UNKNOWN).
Proof.
  intros Hok. unfold handleResponse. rewrite Hok. simpl.
  eexists. split; [reflexivity|]. split; [reflexivity|].
  split; [reflexivity|]. split; [reflexivity|]. simpl.
  unfold mapStatusToCode, status_map.
  set (s := res_status res).
  repeat split; intros; subst; try reflexivity;
  repeat match goal with
  | |- context [Z.eqb ?a ?b] => destruct (Z.eqb_spec a b); subst
  end; simpl in *; try lia;
  try (exfalso; intuition congruence);
  repeat match goal with
  | |- context [Z.leb ?a ?b] => destruct (Z.leb_spec a b)
  | |- context [Z.ltb ?a ?b] => destruct (Z.ltb_spec a b)
  end; simpl; try reflexivity; lia.
Qed.

(** Concrete inputs used by the witnesses and counterexamples. *)
Definition hdr_json (rid : string) : Headers :=
  [("content-type", "application/json"); ("x-request-id", rid)].

Definition res_json_error (st : Z) (body : json) : Response :=
  mkResponse st (hdr_json "rid_err") None (Some body).

Definition pdf_bytes : bytes := [Byte.x25; Byte.x50; Byte.x44; Byte.x46].

Definition res_pdf : Response :=
  mkResponse 200 [("content-type", "application/pdf"); ("x-request-id", "rid_1")]
    (Some pdf_bytes) None.

Definition params_buffer : ConvertParams :=
  mkParams "in.docx" None None None false None None.

Definition fs_all : FileSystem := mkFs (fun _ => true) (fun _ => true).

Definition ae_of (t : Transport) : AttemptEnv := mkAttemptEnv None NotAborted t None.

Definition client_with (m : JsNumber) : Office2PDF :=
  mkClient "op2p_test_123" "https://api.example" DEFAULT_TIMEOUT_MS
    "office2pdf-node" m.

(** Witness of C1: a 401 JSON error. *)
Lemma C1_non_2xx_error_kind_witness :
  res_ok (res_json_error 401 (JObject [("message", JString "Invalid API key")]))
    = false /\
  exists e,
    handleResponse (res_json_error 401 (JObject [("message", JString "Invalid API key")]))
      params_buffer None = inr (TO2P e) /\
    status e = Some 401%Z /\ requestId e = Some "rid_err" /\ code e = UNAUTHORIZED.
Proof.
  split; [reflexivity|].
  destruct (C1_non_2xx_error_kind
              (res_json_error 401 (JObject [("message", JString "Invalid API key")]))
              params_buffer None eq_refl)
    as (e & H1 & _ & H3 & H4 & H5 & _).
  exists e. split; [exact H1|]. split; [exact H3|]. split; [exact H4|].
  apply H5. reflexivity.
Defined.

(* ------------------------------------------------------------------------- *)
(** * The retry loop *)

Lemma convert_loop_S c params env fuel attempt draws lastError :
  convert_loop c params env (S fuel) attempt draws lastError =
  if js_le attempt (maxRetries c) then
    match sendConvertRequest params (env_attempt env attempt) with
    | inl r => (LReturn r, [EvSend attempt])
    | inr err =>
        let normalized := normalizeError err in
        if (js_lt attempt (maxRetries c) && isRetryAble normalized)%bool then
          let ms := timer_delay (getBackoffMs attempt (env_random env draws)) in
          let (ex, tr) := convert_loop c params env fuel (S attempt)
                            (S draws) (Some normalized) in
          (ex, EvSend attempt :: EvSleep ms :: tr)
        else (LThrow normalized, [EvSend attempt])
    end
  else (LFallOut lastError, []).
Proof. reflexivity. Qed.

Lemma count_sends_retry a ms tr :
  count_sends (EvSend a :: EvSleep ms :: tr) = S (count_sends tr).
Proof. reflexivity. Qed.

(** Attempt [i] fails with an error that [isRetryAble] accepts. *)
Definition retryable_failure (params : ConvertParams) (env : Env) (i : nat) : Prop :=
  exists err, sendConvertRequest params (env_attempt env i) = inr err /\
              isRetryAble (normalizeError err) = true.

(** How the last permitted attempt [n] leaves the loop. *)
Definition final_exit (params : ConvertParams) (env : Env) (n : nat) : LoopExit :=
  match sendConvertRequest params (env_attempt env n) with
  | inl r => LReturn r
  | inr err => LThrow (normalizeError err)
  end.

(** With an integer bound [n], a run of retryable failures from attempt [a]
    up to [n - 1] reaches attempt [n], whose outcome ends the loop. *)
Lemma loop_run_to_bound c params env n :
  maxRetries c = JsNum (inject_Z (Z.of_nat n)) ->
  forall (k a draws : nat) lastError (fuel : nat),
  (a + k = n)%nat -> (k < fuel)%nat ->
  (forall i : nat, (a <= i < n)%nat -> retryable_failure params env i) ->
  fst (convert_loop c params env fuel a draws lastError) = final_exit params env n /\
  count_sends (snd (convert_loop c params env fuel a draws lastError)) = S k.
Proof.
  intros Hm k. induction k as [|k IH]; intros a draws lastError fuel Hak Hf Hfail.
  - destruct fuel as [|fuel]; [lia|].
    rewrite convert_loop_S, Hm, js_le_nat, js_lt_nat.
    replace a with n by lia. rewrite Nat.leb_refl, Nat.ltb_irrefl.
    unfold final_exit.
    destruct (sendConvertRequest params (env_attempt env n)) as [r|err];
      simpl; split; reflexivity.
  - destruct fuel as [|fuel]; [lia|].
    rewrite convert_loop_S, Hm, js_le_nat.
    replace (Nat.leb a n) with true by (symmetry; apply Nat.leb_le; lia).
    destruct (Hfail a ltac:(lia)) as (err & Hsend & Hretry).
    rewrite Hsend. cbv zeta.
    rewrite js_lt_nat.
    replace (Nat.ltb a n) with true by (symmetry; apply Nat.ltb_lt; lia).
    rewrite Hretry. simpl andb.
    destruct (IH (S a) (S draws) (Some (normalizeError err)) fuel
                ltac:(lia) ltac:(lia) ltac:(intros i Hi; apply Hfail; lia))
      as [IH1 IH2].
    destruct (convert_loop c params env fuel (S a) (S draws)
                (Some (normalizeError err))) as [ex tr].
    simpl in IH1, IH2 |- *. split; [exact IH1|].
    rewrite count_sends_retry, IH2. reflexivity.
Qed.

(** [convert] on an integer bound, once validation has passed. *)
Lemma convert_run_to_bound c params env n :
  maxRetries c = JsNum (inject_Z (Z.of_nat n)) ->
  validateParams (env_fs env) params = None ->
  (forall i : nat, (i < n)%nat -> retryable_failure params env i) ->
  (match final_exit params env n with
   | LReturn r => fst (convert c params env) = Returned r
   | LThrow e => fst (convert c params env) = Threw e
   | LFallOut _ => False
   end) /\
  count_sends (snd (convert c params env)) = S n.
Proof.
  intros Hm Hv Hfail.
  destruct (loop_run_to_bound c params env n Hm n 0 0 None (loop_fuel (maxRetries c))
              ltac:(lia) ltac:(rewrite Hm, loop_fuel_nat; lia)
              ltac:(intros i Hi; apply Hfail; lia)) as [H1 H2].
  unfold convert. rewrite Hv.
  destruct (convert_loop c params env (loop_fuel (maxRetries c)) 0 0 None)
    as [ex tr].
  simpl in H1, H2. subst ex.
  unfold final_exit. destruct (sendConvertRequest params (env_attempt env n));
    simpl; split; auto.
Qed.

(* ------------------------------------------------------------------------- *)
(** * C2: number of attempts *)

(** C2: with [maxRetries = N], [N] retryable failures followed by a success
    return that success after exactly [N + 1] attempts, and [N + 1]
    retryable failures throw the last (normalised) error after exactly
    [N + 1] attempts. *)
Theorem C2_retry_count (c : Office2PDF) (params : ConvertParams) (env : Env)
    (N : nat) :
  maxRetries c = JsNum (inject_Z (Z.of_nat N)) ->
  validateParams (env_fs env) params = None ->
  (forall i : nat, (i < N)%nat -> retryable_failure params env i) ->
  (forall r, sendConvertRequest params (env_attempt env N) = inl r ->
     fst (convert c params env) = Returned r /\
     count_sends (snd (convert c params env)) = S N) /\
  (forall err, sendConvertRequest params (env_attempt env N) = inr err ->
     isRetryAble (normalizeError err) = true ->
     fst (convert c params env) = Threw (normalizeError err) /\
     count_sends (snd (convert c params env)) = S N).
Proof.
  intros Hm Hv Hfail.
  destruct (convert_run_to_bound c params env N Hm Hv Hfail) as [H1 H2].
  unfold final_exit in H1.
  split.
  - intros r Hr. rewrite Hr in H1. auto.
  - intros err He _. rewrite He in H1. auto.
Qed.

Definition env_429_then_ok : Env :=
  mkEnv fs_all
    (fun n => match n with
              | O => ae_of (TRespond (res_json_error 429
                                        (JObject [("message", JString "Busy")])))
              | _ => ae_of (TRespond res_pdf)
              end)
    (fun _ => 0).

(** Witness of C2: [maxRetries = 1], a 429 then a 200. *)
Lemma C2_retry_count_witness :
  fst (convert (client_with (JsNum (inject_Z (Z.of_nat 1)))) params_buffer
         env_429_then_ok)
    = Returned (KBuffer pdf_bytes "application/pdf" (Some "rid_1")) /\
  count_sends (snd (convert (client_with (JsNum (inject_Z (Z.of_nat 1))))
                      params_buffer env_429_then_ok)) = 2%nat.
Proof.
  destruct (C2_retry_count (client_with (JsNum (inject_Z (Z.of_nat 1))))
              params_buffer env_429_then_ok 1 eq_refl eq_refl
              ltac:(intros i Hi; destruct i;
                    [eexists; split; reflexivity | exfalso; lia]))
    as [H1 _].
  apply H1. reflexivity.
Defined.

(* ------------------------------------------------------------------------- *)
(** * C3: the retry decision *)

Lemma new_Office2PDF_maxRetries opts c :
  new_Office2PDF opts = inl c ->
  maxRetries c = js_max0 (opt_default (opt_maxRetries opts) DEFAULT_MAX_RETRIES).
Proof.
  unfold new_Office2PDF. destruct (String.eqb _ _); intros H; inversion H.
  reflexivity.
Qed.

Lemma new_Office2PDF_bound opts c :
  new_Office2PDF opts = inl c -> opt_maxRetries opts <> Some JsNaN ->
  exists q, maxRetries c = JsNum q /\ (0 <= q)%Q.
Proof.
  intros Hc Hn. rewrite (new_Office2PDF_maxRetries _ _ Hc).
  apply js_max0_nonneg.
  destruct (opt_maxRetries opts) as [x|]; simpl; [|discriminate].
  intros ->. apply Hn. reflexivity.
Qed.

Definition opts_with (m : option JsNumber) : Office2PDFClientOptions :=
  mkOptions "op2p_test_123" (Some "https://api.example") None None m.

Definition env_401 : Env :=
  mkEnv fs_all
    (fun _ => ae_of (TRespond (res_json_error 401
                                 (JObject [("error", JString "UNAUTHORIZED");
                                           ("message", JString "Invalid API key")]))))
    (fun _ => 0).

(** C3, at [maxRetries: NaN]: the constructor's clamp [Math.max(0, NaN)]
    keeps NaN, so the loop condition [0 <= NaN] is false; although the
    first attempt would fail with a non-retryable 401, no request is sent
    at all and the generic fallback error is thrown. *)
Lemma C3_nan_bound_no_attempt :
  exists c err,
    new_Office2PDF (opts_with (Some JsNaN)) = inl c /\
    maxRetries c = JsNaN /\
    sendConvertRequest params_buffer (env_attempt env_401 0) = inr err /\
    isRetryAble (normalizeError err) = false /\
    convert c params_buffer env_401 = (Threw unexpected_failure, []) /\
    count_sends (snd (convert c params_buffer env_401)) = 0%nat.
Proof.
  eexists. eexists. split; [reflexivity|]. split; [reflexivity|].
  split; [reflexivity|].
  repeat split; reflexivity.
Qed.

(* ------------------------------------------------------------------------- *)
(** * C4: backoff before each retry *)

(** Every sleep in the loop's trace comes right before the next attempt and
    its timer waits for [getBackoffMs] of the previous attempt index, drawn
    from the [Math.random()] call of that retry. *)
Lemma loop_sleeps_before c params env :
  forall fuel a lastError,
  let tr := snd (convert_loop c params env fuel a a lastError) in
  (tr = [] \/ exists tr', tr = EvSend a :: tr') /\
  (forall pre ms n post, tr = (pre ++ EvSleep ms :: EvSend n :: post)%list ->
     (1 <= n)%nat /\
     ms = timer_delay (getBackoffMs (n - 1) (env_random env (n - 1)))).
Proof.
  induction fuel as [|fuel IH]; intros a lastError tr; subst tr.
  - simpl. split; [left; reflexivity|].
    intros pre ms n post H. destruct pre; discriminate.
  - rewrite convert_loop_S.
    destruct (js_le a (maxRetries c)).
    2:{ simpl. split; [left; reflexivity|].
        intros pre ms n post H. destruct pre; discriminate. }
    destruct (sendConvertRequest params (env_attempt env a)) as [r|err].
    { simpl. split; [right; eexists; reflexivity|].
      intros pre ms n post H.
      destruct pre as [|x [|y pre]]; simpl in H; inversion H;
      destruct pre; discriminate. }
    cbv zeta.
    destruct (js_lt a (maxRetries c) && isRetryAble (normalizeError err))%bool.
    2:{ simpl. split; [right; eexists; reflexivity|].
        intros pre ms n post H.
        destruct pre as [|x [|y pre]]; simpl in H; inversion H;
        destruct pre; discriminate. }
    pose proof (IH (S a) (Some (normalizeError err))) as [Hhd Hsl].
    destruct (convert_loop c params env fuel (S a) (S a)
                (Some (normalizeError err))) as [ex tr'] eqn:E.
    simpl in Hhd, Hsl |- *.
    split; [right; eexists; reflexivity|].
    intros pre ms n post H.
    destruct pre as [|x pre]; [discriminate H|].
    simpl in H. injection H as _ Hrest.
    destruct pre as [|y pre]; simpl in Hrest.
    + injection Hrest as Hms Htl. subst ms.
      destruct Hhd as [Hnil | (tr'' & Htr)]; [subst tr'; discriminate Htl|].
      subst tr'. injection Htl as Hn _. subst n.
      simpl. rewrite Nat.sub_0_r. split; [lia | reflexivity].
    + injection Hrest as _ Hrest'.
      apply (Hsl pre ms n post). exact Hrest'.
Qed.

(** A double that is the finite value [z]. *)
Definition double_is (d : Double) (z : Z) : Prop :=
  match d with
  | DFin x => (x == inject_Z z)%Q
  | _ => False
  end.

Definition env_503_zero : Env :=
  mkEnv fs_all (fun _ => ae_of (TRespond (res_json_error 503 (JObject []))))
    (fun _ => 0).

(** C4, at [maxRetries: 24] with 25 consecutive 503 responses and
    [Math.random()] returning 0: [getBackoffMs(23)] is [300 * 2^23], above
    Node's timer limit [2^31 - 1], so the sleep before attempt 24 lasts 1 ms.
    Further out, the double arithmetic of [getBackoffMs] leaves the stated
    range: at attempt index 47 a jitter of 149 becomes 152, and from index
    1016 the wait is [Infinity]. *)
Lemma C4_backoff_timer_overflow :
  (exists c pre post,
     new_Office2PDF (opts_with (Some (JsNum (inject_Z 24)))) = inl c /\
     snd (convert c params_buffer env_503_zero)
       = (pre ++ EvSleep 1 :: EvSend 24 :: post)%list /\
     length pre = 47%nat) /\
  double_is (getBackoffMs 23 0) (300 * 2 ^ 23) /\
  (TIMEOUT_MAX < 300 * 2 ^ 23)%Z /\
  timer_delay (getBackoffMs 23 0) = 1%Z /\
  Qfloor ((1023 # 1024) * 150) = 149%Z /\
  double_is (getBackoffMs 47 (1023 # 1024)) (300 * 2 ^ 47 + 152) /\
  getBackoffMs 1016 0 = DInf.
Proof.
  split.
  - eexists. exists (firstn 47 (snd (convert (client_with (JsNum (inject_Z 24)))
                                     params_buffer env_503_zero))).
    eexists. split; [reflexivity|].
    split; [vm_compute; reflexivity | vm_compute; reflexivity].
  - vm_compute. repeat split; reflexivity.
Qed.

(* ------------------------------------------------------------------------- *)
(** * C5: the error message of a non-2xx response *)

Definition fallback_message (st : Z) : string :=
  "Request failed with status " ++ JsString.of_Z st.

(** C5 (as stated, refuted): a JSON body whose [message] field is present but
    not a string does not supply the message. *)
Lemma C5_non_string_message_ignored :
  exists e,
    handleResponse (res_json_error 400 (JObject [("message", JNumber (inject_Z 42))]))
      params_buffer None = inr (TO2P e) /\
    get_prop (JObject [("message", JNumber (inject_Z 42))]) "message"
      = Some (JNumber (inject_Z 42)) /\
    message e = "Request failed with status 400".
Proof.
  eexists. split; [reflexivity|]. split; reflexivity.
Qed.

(** C5 (amended): for a non-2xx response, the body is parsed as JSON only
    when its content-type contains "application/json" and parsing succeeds;
    otherwise there is no structured body, the message is
    "Request failed with status {status}" and there is no payload.  With a
    parsed body [j], the message is [j.message] when it is a string, else
    [j.error_description] when it is a string, else the same literal; and
    [j] (unless it is JSON [null]) is kept as the error's [details]. *)
Theorem C5_error_message (res : Response) (params : ConvertParams)
    (body_io : option Thrown) :
  res_ok res = false ->
  exists e,
    handleResponse res params body_io = inr (TO2P e) /\
    ((match headers_get (res_headers res) "content-type" with
      | Some ct => JsString.includes ct "application/json" = false
      | None => True
      end \/ res_json res = None) ->
     message e = fallback_message (res_status res) /\ details e = None) /\
    (forall ct j,
       headers_get (res_headers res) "content-type" = Some ct ->
       JsString.includes ct "application/json" = true ->
       res_json res = Some j ->
       (j <> JNull -> details e = Some (DJson j)) /\
       (forall m, string_prop j "message" = Some m -> message e = m) /\
       (forall d, string_prop j "message" = None ->
                  string_prop j "error_description" = Some d -> message e = d) /\
       (string_prop j "message" = None ->
        string_prop j "error_description" = None ->
        message e = fallback_message (res_status res))).
Proof.
  intros Hok. unfold handleResponse. rewrite Hok. cbv zeta. simpl negb.
  eexists. split; [reflexivity|]. simpl.
  unfold fallback_message, safeReadJson.
  split.
  - intros Hno.
    destruct (headers_get (res_headers res) "content-type") as [ct|] eqn:Hct.
    + destruct (JsString.includes ct "application/json") eqn:Hinc; simpl.
      * destruct Hno as [Hno|Hno]; [discriminate|]. rewrite Hno.
        split; reflexivity.
      * split; reflexivity.
    + split; reflexivity.
  - intros ct j Hct Hinc Hj. rewrite Hct, Hinc, Hj. simpl.
    split; [|split; [|split]].
    + intros Hnn. destruct j; try reflexivity. congruence.
    + intros m Hm. rewrite Hm. reflexivity.
    + intros d Hm Hd. rewrite Hm, Hd. reflexivity.
    + intros Hm Hd. rewrite Hm, Hd. reflexivity.
Qed.

(** Witness of C5: the 502 body [{"error": "CONVERT_FAILED"}]. *)
Lemma C5_error_message_witness :
  exists e,
    handleResponse (res_json_error 502 (JObject [("error", JString "CONVERT_FAILED")]))
      params_buffer None = inr (TO2P e) /\
    message e = "Request failed with status 502" /\
    details e = Some (DJson (JObject [("error", JString "CONVERT_FAILED")])).
Proof.
  destruct (C5_error_message
              (res_json_error 502 (JObject [("error", JString "CONVERT_FAILED")]))
              params_buffer None eq_refl) as (e & He & _ & H).
  exists e. split; [exact He|].
  destruct (H "application/json" (JObject [("error", JString "CONVERT_FAILED")])
              eq_refl eq_refl eq_refl) as (Hd & _ & _ & Hf).
  split.
  - rewrite (Hf eq_refl eq_refl). reflexivity.
  - apply Hd. discriminate.
Defined.

(* ------------------------------------------------------------------------- *)
(** * C6: validation before any request *)

Lemma dirname_scan_range (cs : list ascii) :
  forall i m j, dirname_scan cs i m = Some j ->
  (i + 1 <= j + length cs)%nat /\ (j <= i)%nat.
Proof.
  induction cs as [|c rest IH]; intros i m j H; simpl in H; [discriminate|].
  destruct (Ascii.eqb c "/"); [destruct (negb m)|].
  - inversion H; subst. simpl. lia.
  - destruct (IH _ _ _ H). simpl. lia.
  - destruct (IH _ _ _ H). simpl. lia.
Qed.

Lemma list_ascii_of_string_length (s : string) :
  length (list_ascii_of_string s) = String.length s.
Proof. induction s; simpl; auto. Qed.

(** [path.dirname] never returns the empty string. *)
Lemma dirname_nonempty (p : string) : dirname p <> "".
Proof.
  unfold dirname. destruct p as [|c0 p']; simpl; [discriminate|].
  rewrite Nat.sub_0_r.
  destruct (dirname_scan (rev (list_ascii_of_string p')) (String.length p') true)
    as [j|] eqn:E.
  - destruct (dirname_scan_range _ _ _ _ E) as [H1 _].
    rewrite length_rev, list_ascii_of_string_length in H1.
    destruct (Ascii.eqb c0 "/" && Nat.eqb j 1)%bool; [discriminate|].
    destruct j as [|j]; [lia|]. simpl. discriminate.
  - destruct (Ascii.eqb c0 "/"); discriminate.
Qed.

Definition fs_cwd_readonly : FileSystem :=
  mkFs (fun _ => true) (fun d => negb (String.eqb d ".")).

Definition params_download (dest : string) : ConvertParams :=
  mkParams "in.docx" None None None false (Some dest) None.

Definition env_ok_with (fs : FileSystem) : Env :=
  mkEnv fs (fun _ => ae_of (TRespond res_pdf)) (fun _ => 0).

(** C6 (as stated, refuted): with [downloadToPath = "out.pdf"] the parent
    directory is "." and is not writable, yet validation passes and a
    request is sent. *)
Lemma C6_cwd_parent_not_checked :
  dirname "out.pdf" = "." /\
  fs_writable fs_cwd_readonly (dirname "out.pdf") = false /\
  validateParams fs_cwd_readonly (params_download "out.pdf") = None /\
  convert (client_with DEFAULT_MAX_RETRIES) (params_download "out.pdf")
    (env_ok_with fs_cwd_readonly)
  = (Returned (KDownloaded "out.pdf" "application/pdf" (Some "rid_1")), [EvSend 0]).
Proof. repeat split; reflexivity. Qed.

(** C6 (amended): [convert] fails with INVALID_REQUEST before sending any
    request, and without retrying, when the file path is empty or
    whitespace-only or not readable, when both the streamed-result flag and a
    disk destination are set, or when a disk destination is set whose
    [path.dirname] is not "." and not writable (a destination directly in
    the working directory is not checked). *)
Theorem C6_validation_first (c : Office2PDF) (params : ConvertParams) (env : Env) :
  (JsString.trim (filePath params) = "" \/
   fs_readable (env_fs env) (filePath params) = false \/
   (truthy_bool (asWebStream params) = true /\
    truthy_string (downloadToPath params) = true) \/
   (exists d, downloadToPath params = Some d /\ d <> "" /\
              dirname d <> "." /\ fs_writable (env_fs env) (dirname d) = false)) ->
  exists e, convert c params env = (Threw e, []) /\ code e = INVALID_REQUEST.
Proof.
  intros H.
  unfold convert.
  assert (Hv : exists e, validateParams (env_fs env) params = Some e /\
                         code e = INVALID_REQUEST).
  { unfold validateParams.
    destruct (String.eqb_spec (JsString.trim (filePath params)) "") as [Ht|Ht].
    { eexists; split; reflexivity. }
    destruct (fs_readable (env_fs env) (filePath params)) eqn:Hr; simpl.
    2:{ eexists; split; reflexivity. }
    destruct (truthy_bool (asWebStream params) && truthy_string (downloadToPath params))%bool
      eqn:Hb.
    { eexists; split; reflexivity. }
    destruct H as [H|[H|[[H1 H2]|(d & Hd & Hne & Hdot & Hw)]]];
      [congruence | congruence | rewrite H1, H2 in Hb; discriminate |].
    rewrite Hd. simpl.
    destruct (String.eqb_spec d "") as [He|He]; [congruence|]. simpl.
    destruct (String.eqb_spec (dirname d) "") as [He'|_];
      [exfalso; exact (dirname_nonempty d He')|].
    destruct (String.eqb_spec (dirname d) ".") as [Hd'|_]; [congruence|]. simpl.
    rewrite Hw. eexists; split; reflexivity. }
  destruct Hv as (e & Hv & Hc). rewrite Hv. exists e. split; [reflexivity | exact Hc].
Qed.

(** Witness of C6: streamed result and disk destination together. *)
Lemma C6_validation_first_witness :
  exists e,
    convert (client_with DEFAULT_MAX_RETRIES)
      (mkParams "in.docx" None None None false (Some "/tmp/out.pdf") (Some true))
      (env_ok_with fs_all) = (Threw e, []) /\ code e = INVALID_REQUEST.
Proof.
  apply C6_validation_first. right. right. left. split; reflexivity.
Defined.

(* ------------------------------------------------------------------------- *)
(** * C7: successful responses *)

(** The delivery mode the caller asked for. *)
Definition delivery_mode (params : ConvertParams) : string :=
  if truthy_bool (asWebStream params) then "stream"
  else if truthy_string (downloadToPath params) then "downloaded"
  else "buffer".

Definition res_204 : Response := mkResponse 204 [] None None.

Definition params_stream : ConvertParams :=
  mkParams "in.docx" None None None false None (Some true).

(** C7 (as stated, refuted): a 2xx response without a body (such as a 204)
    in streamed mode produces no result variant: it fails with UNKNOWN. *)
Lemma C7_empty_body_no_variant :
  res_ok res_204 = true /\
  exists e,
    handleResponse res_204 params_stream None = inr (TO2P e) /\
    code e = UNKNOWN /\ message e = "Empty response body".
Proof. split; [reflexivity|]. eexists. repeat split; reflexivity. Qed.

(** C7 (amended): for a 2xx response, any result is the variant of the
    requested mode (stream when the streamed-result flag is set, downloaded
    when a disk destination is set, buffer otherwise), its content type is
    the content-type header or "application/pdf" when absent, and its
    request-id is x-request-id, else cf-ray, else absent.  A result is
    produced exactly when the body is present (always in buffer mode) and,
    outside streamed mode, reading or saving the body succeeds; otherwise
    the attempt fails (UNKNOWN "Empty response body" for a missing body). *)
Theorem C7_success_variant (res : Response) (params : ConvertParams)
    (body_io : option Thrown) :
  res_ok res = true ->
  (forall r, handleResponse res params body_io = inl r ->
     result_kind r = delivery_mode params /\
     result_contentType r =
       match headers_get (res_headers res) "content-type" with
       | Some ct => ct
       | None => "application/pdf"
       end /\
     result_requestId r =
       match headers_get (res_headers res) "x-request-id" with
       | Some v => Some v
       | None => headers_get (res_headers res) "cf-ray"
       end) /\
  ((exists r, handleResponse res params body_io = inl r) <->
   ((delivery_mode params = "buffer" \/ res_body res <> None) /\
    (delivery_mode params = "stream" \/ body_io = None))) /\
  (delivery_mode params <> "buffer" -> res_body res = None ->
   exists e, handleResponse res params body_io = inr (TO2P e) /\
             code e = UNKNOWN /\ message e = "Empty response body" /\
             requestId e = getRequestId res).
Proof.
  intros Hok. unfold handleResponse, delivery_mode. rewrite Hok. simpl negb.
  cbv zeta iota.
  destruct (truthy_bool (asWebStream params));
    [|destruct (truthy_string (downloadToPath params))];
    destruct (res_body res) as [b|]; destruct body_io as [t|].
  all: split; [intros r Hr; inversion Hr; subst; simpl; repeat split; reflexivity|].
  all: split; [split|].
  all: first
    [ intros [r Hr];
      first [ discriminate Hr
            | split; first [ left; reflexivity | right; discriminate
                           | right; reflexivity ] ]
    | intros [[H1|H1] [H2|H2]];
      first [ discriminate H1 | discriminate H2 | congruence
            | eexists; reflexivity ]
    | intros H1 H2;
      first [ discriminate H2 | congruence
            | eexists; repeat split; reflexivity ] ].
Qed.

(** Witness of C7: the 200 PDF response in buffer mode. *)
Lemma C7_success_variant_witness :
  res_ok res_pdf = true /\
  exists r, handleResponse res_pdf params_buffer None = inl r /\
            result_kind r = "buffer" /\
            result_contentType r = "application/pdf" /\
            result_requestId r = Some "rid_1".
Proof.
  split; [reflexivity|].
  destruct (C7_success_variant res_pdf params_buffer None eq_refl)
    as (Hv & Hex & _).
  destruct (proj2 Hex (conj (or_introl eq_refl) (or_intror eq_refl))) as [r Hr].
  exists r. split; [exact Hr|].
  destruct (Hv r Hr) as (Hk & Hct & Hrid).
  split; [exact Hk|]. split; [exact Hct|]. exact Hrid.
Defined.

(* ------------------------------------------------------------------------- *)
(** * C8: the constructor *)

Definition opts_spaced_url : Office2PDFClientOptions :=
  mkOptions "op2p_test_123" (Some "https://api.example/ ") None None None.

(** C8 (as stated, refuted): the base URL is also stripped of surrounding
    whitespace, so a given URL that does not end in a slash is still changed. *)
Lemma C8_base_url_whitespace_trimmed :
  exists c,
    new_Office2PDF opts_spaced_url = inl c /\
    JsString.endsWith "https://api.example/ " "/" = false /\
    baseUrl c = "https://api.example" /\
    baseUrl c <> "https://api.example/ ".
Proof.
  eexists. split; [reflexivity|]. split; [reflexivity|].
  split; [reflexivity | discriminate].
Qed.

(** C8 (amended): construction fails (before any request) exactly when the
    API key is empty or whitespace-only; otherwise the stored base URL is
    the given URL (or the default when it is absent or empty), trimmed of
    surrounding whitespace, with one trailing slash removed; a given
    maxRetries [m] other than NaN is stored as [max(0, m)], and 2 when it is
    omitted; the timeout defaults to 120000 ms and the user-agent to a fixed
    default string when omitted. *)
Theorem C8_constructor (opts : Office2PDFClientOptions) :
  ((exists err, new_Office2PDF opts = inr err) <->
   JsString.trim (opt_apiKey opts) = "") /\
  (forall c, new_Office2PDF opts = inl c ->
     let given := match opt_baseUrl opts with
                  | Some u => if String.eqb u "" then DEFAULT_BASE_URL else u
                  | None => DEFAULT_BASE_URL
                  end in
     let url := JsString.trim given in
     baseUrl c = (if JsString.endsWith url "/" then JsString.slice_drop_last url
                  else url) /\
     (forall m, opt_maxRetries opts = Some (JsNum m) ->
        maxRetries c = JsNum (if Qle_bool 0 m then m else 0)) /\
     (opt_maxRetries opts <> Some JsNaN ->
      exists q, maxRetries c = JsNum q /\ (0 <= q)%Q) /\
     (opt_maxRetries opts = None -> maxRetries c = JsNum (inject_Z 2)) /\
     (opt_timeoutMs opts = None -> timeoutMs c = JsNum (inject_Z 120000)) /\
     (opt_userAgent opts = None -> userAgent c = "office2pdf-node")).
Proof.
  split.
  - unfold new_Office2PDF.
    destruct (String.eqb_spec (JsString.trim (opt_apiKey opts)) "") as [H|H].
    + split; [intros _; exact H | intros _; eexists; reflexivity].
    + split; [intros [err Herr]; discriminate Herr | intros H'; contradiction].
  - intros c Hc.
    pose proof (new_Office2PDF_bound opts c Hc) as Hb.
    unfold new_Office2PDF in Hc.
    destruct (String.eqb (JsString.trim (opt_apiKey opts)) ""); [discriminate|].
    injection Hc as <-. cbv zeta. simpl.
    split.
    { unfold normalizeBaseUrl, truthy_string.
      destruct (opt_baseUrl opts) as [u|]; [|reflexivity].
      destruct (String.eqb u ""); reflexivity. }
    split; [intros m ->; reflexivity|].
    split; [exact Hb|].
    split; [intros ->; reflexivity|].
    split; [intros ->; reflexivity|].
    intros ->; reflexivity.
Qed.

(** Witness of C8: a key, a URL with a trailing slash and no other option. *)
Lemma C8_constructor_witness :
  exists c,
    new_Office2PDF (mkOptions " op2p " (Some "https://api.example/") None None None)
      = inl c /\
    baseUrl c = "https://api.example" /\ maxRetries c = JsNum (inject_Z 2) /\
    timeoutMs c = JsNum (inject_Z 120000) /\ userAgent c = "office2pdf-node".
Proof.
  exists (mkClient "op2p" "https://api.example" (JsNum (inject_Z 120000))
            "office2pdf-node" (JsNum (inject_Z 2))).
  split; [reflexivity|].
  destruct (C8_constructor (mkOptions " op2p " (Some "https://api.example/") None None None))
    as [_ H].
  destruct (H _ eq_refl) as (Hu & _ & _ & Hm & Ht & Hua).
  split; [exact Hu|]. split; [apply Hm; reflexivity|].
  split; [apply Ht; reflexivity|]. apply Hua; reflexivity.
Defined.

(* ------------------------------------------------------------------------- *)
(** * C9: cancellation by the caller *)

Definition params_signal : ConvertParams :=
  mkParams "in.docx" None None None true None None.

Definition env_cancelled (reason : Thrown) : Env :=
  mkEnv fs_all (fun _ => mkAttemptEnv None (Aborted reason) (TRespond res_pdf) None)
    (fun _ => 0).

(** C9, with the caller's signal aborted before the call with a reason of
    its own: [mergeAbortSignals] returns that signal and [fetch] rejects with
    the reason itself, which [normalizeError] does not map to TIMEOUT.  The
    string "user cancelled" becomes UNKNOWN "Unknown error", which is not
    retry-eligible, so [convert] stops after one attempt; an [Error] reason
    becomes NETWORK_ERROR with its message and is retried up to the bound.
    When the caller's signal fires while the request is in flight, the
    merged controller aborts without a reason and the attempt fails with
    TIMEOUT "Request timed out". *)
Lemma C9_custom_reason_not_retried :
  (exists e,
     convert (client_with DEFAULT_MAX_RETRIES) params_signal
       (env_cancelled (TValue (JString "user cancelled")))
     = (Threw e, [EvSend 0]) /\
     code e = UNKNOWN /\ message e = "Unknown error" /\ isRetryAble e = false) /\
  (exists e,
     fst (convert (client_with DEFAULT_MAX_RETRIES) params_signal
            (env_cancelled (TError "Error" "user cancelled"))) = Threw e /\
     count_sends (snd (convert (client_with DEFAULT_MAX_RETRIES) params_signal
                         (env_cancelled (TError "Error" "user cancelled")))) = 3%nat /\
     code e = NETWORK_ERROR /\ message e = "user cancelled") /\
  sendConvertRequest params_signal (mkAttemptEnv None NotAborted TAbortInFlight None)
    = inr default_abort_reason /\
  normalizeError default_abort_reason = timeout_error /\
  code timeout_error = TIMEOUT.
Proof.
  split; [eexists; split; [reflexivity|]; repeat split; reflexivity|].
  split; [eexists; split; [reflexivity|]; repeat split; reflexivity|].
  repeat split; reflexivity.
Qed.

(* ------------------------------------------------------------------------- *)
(** * C10: the fallback after the loop *)

(** Once an attempt has failed, [lastError] is set and stays set. *)
Lemma loop_some_no_fallout_none c params env :
  forall fuel a draws e,
  fst (convert_loop c params env fuel a draws (Some e)) <> LFallOut None.
Proof.
  induction fuel as [|fuel IH]; intros a draws e; simpl; [discriminate|].
  destruct (js_le a (maxRetries c)); [|discriminate].
  destruct (sendConvertRequest params (env_attempt env a)) as [r|err];
    [discriminate|].
  destruct (js_lt a (maxRetries c) && isRetryAble (normalizeError err))%bool;
    [|discriminate].
  specialize (IH (S a) (S draws) (normalizeError err)).
  destruct (convert_loop c params env fuel (S a) (S draws)
              (Some (normalizeError err))) as [ex tr].
  exact IH.
Qed.

(** With an integer bound the last permitted attempt always returns or
    throws, so control never falls out of the loop. *)
Lemma loop_integer_no_fallout c params env n :
  maxRetries c = JsNum (inject_Z (Z.of_nat n)) ->
  forall (k a draws : nat) lastError (fuel : nat) le,
  (a + k = n)%nat -> (k < fuel)%nat ->
  fst (convert_loop c params env fuel a draws lastError) <> LFallOut le.
Proof.
  intros Hm k. induction k as [|k IH]; intros a draws lastError fuel le Hak Hf.
  - destruct fuel as [|fuel]; [lia|].
    rewrite convert_loop_S, Hm, js_le_nat, js_lt_nat.
    replace a with n by lia. rewrite Nat.leb_refl, Nat.ltb_irrefl.
    destruct (sendConvertRequest params (env_attempt env n)); simpl; discriminate.
  - destruct fuel as [|fuel]; [lia|].
    rewrite convert_loop_S, Hm, js_le_nat.
    replace (Nat.leb a n) with true by (symmetry; apply Nat.leb_le; lia).
    destruct (sendConvertRequest params (env_attempt env a)) as [r|err];
      [simpl; discriminate|].
    cbv zeta.
    destruct (js_lt a (JsNum (inject_Z (Z.of_nat n)))
              && isRetryAble (normalizeError err))%bool; [|simpl; discriminate].
    specialize (IH (S a) (S draws) (Some (normalizeError err)) fuel le
                  ltac:(lia) ltac:(lia)).
    destruct (convert_loop c params env fuel (S a) (S draws)
                (Some (normalizeError err))) as [ex tr].
    exact IH.
Qed.

(** C10, at [maxRetries: NaN]: the constructor's clamp [Math.max(0, NaN)]
    keeps NaN, the loop condition [0 <= NaN] is false, control falls out of
    the loop with no recorded error and [convert] throws the generic UNKNOWN
    "Unexpected conversion failure".  (With a fractional bound such as 1.5,
    control also falls out of the loop, after the attempts 0 and 1, but then
    with the last error recorded, which is what is thrown.) *)
Lemma C10_nan_reaches_fallback :
  (exists c,
     new_Office2PDF (opts_with (Some JsNaN)) = inl c /\
     maxRetries c = JsNaN /\
     fst (convert_loop c params_buffer (env_ok_with fs_all)
            (loop_fuel (maxRetries c)) 0 0 None) = LFallOut None /\
     convert c params_buffer (env_ok_with fs_all) = (Threw unexpected_failure, [])) /\
  (exists c e,
     new_Office2PDF (opts_with (Some (JsNum (3 # 2)))) = inl c /\
     fst (convert_loop c params_buffer env_503_zero
            (loop_fuel (maxRetries c)) 0 0 None) = LFallOut (Some e) /\
     fst (convert c params_buffer env_503_zero) = Threw e /\
     e <> unexpected_failure).
Proof.
  split; [eexists; split; [reflexivity|]; repeat split; reflexivity|].
  do 2 eexists. split; [reflexivity|].
  split; [vm_compute; reflexivity|].
  split; [vm_compute; reflexivity|].
  discriminate.
Qed.

(* ------------------------------------------------------------------------- *)
(** * Further properties of the client *)

(** [mapStatusToCode] never yields the two codes that [isRetryAble] accepts
    unconditionally. *)
Lemma mapStatusToCode_not_transient (s : Z) :
  code_eqb (mapStatusToCode s) TIMEOUT = false /\
  code_eqb (mapStatusToCode s) NETWORK_ERROR = false.
Proof.
  unfold mapStatusToCode, status_map.
  repeat match goal with
  | |- context [Z.eqb ?a ?b] => destruct (Z.eqb a b)
  | |- context [Z.leb ?a ?b] => destruct (Z.leb a b)
  | |- context [Z.ltb ?a ?b] => destruct (Z.ltb a b)
  end; simpl; split; reflexivity.
Qed.

(** Retry eligibility of the errors [handleResponse] raises itself: such an
    error is retried exactly when it comes from a non-2xx response whose
    status is 408, 429 or in [500, 599].  In particular the
    "Empty response body" error is never retried, and neither is a
    SERVER_ERROR with a status of 600 or more. *)
Theorem handleResponse_error_retryable (res : Response) (params : ConvertParams)
    (err : Thrown) :
  handleResponse res params None = inr err ->
  isRetryAble (normalizeError err) = true <->
  res_ok res = false /\ isRetryAbleStatus (res_status res) = true.
Proof.
  unfold handleResponse.
  destruct (res_ok res) eqn:Hok; simpl.
  - destruct (truthy_bool (asWebStream params));
      [|destruct (truthy_string (downloadToPath params))];
      destruct (res_body res); intros H; inversion H; subst; simpl.
    all: split; [intros Hx; discriminate Hx | intros [Hx _]; discriminate Hx].
  - intros H. injection H as <-. simpl.
    unfold isRetryAble. simpl.
    destruct (mapStatusToCode_not_transient (res_status res)) as [-> ->].
    simpl. unfold isRetryAbleStatus.
    destruct (Z.eqb_spec (res_status res) 0) as [E|E].
    + rewrite E. simpl. split; [discriminate | intros [_ H]; discriminate H].
    + simpl. split; [intros H; split; auto | intros [_ H]; exact H].
Qed.

(** Retry eligibility of thrown values that are not [Office2PDFError]s: after
    [normalizeError] they carry no status and no request-id, and they are
    retried exactly when they are [Error]s (a [DOMException], timeouts
    included, or any other [Error]); a thrown non-[Error] value becomes
    UNKNOWN and is never retried. *)
Theorem normalizeError_foreign_retryable (t : Thrown) :
  (forall e, t <> TO2P e) ->
  status (normalizeError t) = None /\
  requestId (normalizeError t) = None /\
  (isRetryAble (normalizeError t) = true <->
   exists name msg, t = TDOMException name msg \/ t = TError name msg) /\
  (code (normalizeError t) = UNKNOWN <-> exists v, t = TValue v).
Proof.
  intros Hnot. destruct t as [e|name msg|name msg|v].
  - exfalso. exact (Hnot e eq_refl).
  - simpl. destruct (String.eqb name "AbortError"); simpl.
    all: split; [reflexivity|]; split; [reflexivity|].
    all: split; [split; [intros _; eauto | reflexivity] |].
    all: split; [discriminate | intros [v Hv]; discriminate Hv].
  - simpl. split; [reflexivity|]. split; [reflexivity|].
    split; [split; [intros _; eauto | reflexivity] |].
    split; [discriminate | intros [v Hv]; discriminate Hv].
  - simpl. split; [reflexivity|]. split; [reflexivity|].
    split.
    + split; [discriminate|].
      intros (name & msg & [H|H]); discriminate H.
    + split; [intros _; eauto | reflexivity].
Qed.

Lemma in_active_signals (signals : list (option SignalState)) (s : SignalState) :
  In s (flat_map (fun o => match o with Some s => [s] | None => [] end) signals)
  <-> In (Some s) signals.
Proof.
  rewrite in_flat_map. split.
  - intros ([s'|] & Hin & Hs); simpl in Hs; [|contradiction].
    destruct Hs as [<-|[]]. exact Hin.
  - intros Hin. exists (Some s). split; [exact Hin | left; reflexivity].
Qed.

(** [mergeAbortSignals]: the merged signal is [undefined] exactly when every
    argument is; otherwise it is already aborted exactly when one of the
    arguments is, and then with the reason of one of them (a fresh merged
    controller is never aborted at creation). *)
Theorem mergeAbortSignals_aborted (signals : list (option SignalState)) :
  (mergeAbortSignals signals = None <-> forall o, In o signals -> o = None) /\
  (forall s, mergeAbortSignals signals = Some s ->
     (signal_aborted s = true <-> exists r, In (Some (Aborted r)) signals) /\
     (forall r, s = Aborted r -> In (Some (Aborted r)) signals)).
Proof.
  pose proof (in_active_signals signals) as Hin.
  unfold mergeAbortSignals. cbv zeta.
  destruct (flat_map (fun o => match o with Some s => [s] | None => [] end)
              signals) as [|s0 [|s1 rest]] eqn:Ea.
  - split.
    + split; [intros _ | reflexivity].
      intros [s|] Ho; [|reflexivity].
      apply Hin in Ho. destruct Ho.
    + intros s H. discriminate H.
  - split.
    + split; [discriminate|].
      intros Hall. specialize (Hall (Some s0) (proj1 (Hin s0) (or_introl eq_refl))).
      discriminate Hall.
    + intros s H. injection H as <-. split.
      * split.
        -- destruct s0 as [|r]; [discriminate|]. intros _. exists r.
           apply Hin. left. reflexivity.
        -- intros (r & Hr). apply Hin in Hr. destruct Hr as [->|[]]. reflexivity.
      * intros r ->. apply Hin. left. reflexivity.
  - split.
    + split; [destruct (find signal_aborted _); discriminate|].
      intros Hall. specialize (Hall (Some s0) (proj1 (Hin s0) (or_introl eq_refl))).
      discriminate Hall.
    + intros s Hs.
      destruct (find signal_aborted (s0 :: s1 :: rest)) as [ab|] eqn:Ef.
      * injection Hs as <-.
        destruct (find_some _ _ Ef) as [Hab Habt].
        split.
        -- split; [intros _|intros _; exact Habt].
           destruct ab as [|r]; [discriminate Habt|].
           exists r. apply Hin. exact Hab.
        -- intros r ->. apply Hin. exact Hab.
      * injection Hs as <-. split.
        -- split; [discriminate|].
           intros (r & Hr). apply Hin in Hr.
           pose proof (find_none _ _ Ef _ Hr) as Hf. discriminate Hf.
        -- intros r H. discriminate H.
Qed.

(** The shape of an effect trace of the loop started at attempt [a]: a
    request for each attempt [a], [a + 1], ... in order, each one but the
    last followed by exactly one [sleep]; the last request may or may not be
    followed by one. *)
Fixpoint well_spaced (a : nat) (tr : list Event) : bool :=
  match tr with
  | [] => true
  | [EvSend b] => Nat.eqb b a
  | EvSend b :: EvSleep _ :: rest => (Nat.eqb b a && well_spaced (S a) rest)%bool
  | _ => false
  end.

Lemma loop_well_spaced c params env :
  forall fuel a draws lastError,
  well_spaced a (snd (convert_loop c params env fuel a draws lastError)) = true.
Proof.
  induction fuel as [|fuel IH]; intros a draws lastError; [reflexivity|].
  rewrite convert_loop_S.
  destruct (js_le a (maxRetries c)); [|reflexivity].
  destruct (sendConvertRequest params (env_attempt env a)) as [r|err];
    [simpl; apply Nat.eqb_refl|].
  cbv zeta.
  destruct (js_lt a (maxRetries c) && isRetryAble (normalizeError err))%bool;
    [|simpl; apply Nat.eqb_refl].
  specialize (IH (S a) (S draws) (Some (normalizeError err))).
  destruct (convert_loop c params env fuel (S a) (S draws)
              (Some (normalizeError err))) as [ex tr].
  simpl in IH |- *. rewrite Nat.eqb_refl. exact IH.
Qed.

Lemma js_le_floor (a : nat) (q : Q) :
  js_le a (JsNum q) = true -> (a <= Z.to_nat (Qfloor q))%nat.
Proof.
  unfold js_le. intros H. apply Qle_bool_iff in H.
  apply Qfloor_resp_le in H. rewrite Qfloor_Z in H. lia.
Qed.

Lemma loop_sends_bound c params env q :
  maxRetries c = JsNum q ->
  forall fuel a draws lastError,
  (count_sends (snd (convert_loop c params env fuel a draws lastError))
     <= S (Z.to_nat (Qfloor q)) - a)%nat.
Proof.
  intros Hm. remember (Z.to_nat (Qfloor q)) as n eqn:En.
  induction fuel as [|fuel IH]; intros a draws lastError;
    [apply Nat.le_0_l|].
  rewrite convert_loop_S.
  destruct (js_le a (maxRetries c)) eqn:Hle; [|cbv [snd count_sends filter length]; lia].
  rewrite Hm in Hle. apply js_le_floor in Hle. rewrite <- En in Hle.
  destruct (sendConvertRequest params (env_attempt env a)) as [r|err];
    [cbv [snd count_sends filter length]; lia|].
  cbv zeta.
  destruct (js_lt a (maxRetries c) && isRetryAble (normalizeError err))%bool;
    [|cbv [snd count_sends filter length]; lia].
  specialize (IH (S a) (S draws) (Some (normalizeError err))).
  destruct (convert_loop c params env fuel (S a) (S draws)
              (Some (normalizeError err))) as [ex tr].
  cbn [snd] in IH |- *. rewrite count_sends_retry. lia.
Qed.

(** Every trace of [convert] is well spaced: the requests are made for the
    attempts 0, 1, 2, ... in order, with exactly one backoff sleep between
    two consecutive requests and none before the first; at most
    [floor(maxRetries) + 1] requests are made, and none when maxRetries is
    NaN. *)
Theorem convert_trace_shape (c : Office2PDF) (params : ConvertParams) (env : Env) :
  well_spaced 0 (snd (convert c params env)) = true /\
  (count_sends (snd (convert c params env)) <=
     match maxRetries c with
     | JsNum q => S (Z.to_nat (Qfloor q))
     | JsNaN => 0
     end)%nat.
Proof.
  unfold convert.
  destruct (validateParams (env_fs env) params); [split; [reflexivity | apply Nat.le_0_l]|].
  pose proof (loop_well_spaced c params env (loop_fuel (maxRetries c)) 0 0 None)
    as Hw.
  assert (Hb : (count_sends (snd (convert_loop c params env
                 (loop_fuel (maxRetries c)) 0 0 None)) <=
               match maxRetries c with
               | JsNum q => S (Z.to_nat (Qfloor q))
               | JsNaN => 0
               end)%nat).
  { destruct (maxRetries c) as [q|] eqn:Hm.
    - pose proof (loop_sends_bound c params env q Hm (loop_fuel (JsNum q)) 0 0 None)
        as H. lia.
    - simpl loop_fuel. rewrite convert_loop_S, Hm. simpl. apply le_n. }
  destruct (convert_loop c params env (loop_fuel (maxRetries c)) 0 0 None)
    as [ex tr].
  simpl in Hw, Hb.
  destruct ex; simpl; split; assumption.
Qed.

Lemma js_le_below_floor (a : nat) (q : Q) :
  (0 <= q)%Q -> (a <= Z.to_nat (Qfloor q))%nat -> js_le a (JsNum q) = true.
Proof.
  intros Hq Ha. unfold js_le. apply Qle_bool_iff.
  apply Qle_trans with (inject_Z (Qfloor q)); [|apply Qfloor_le].
  rewrite <- Zle_Qle.
  assert (0 <= Qfloor q)%Z.
  { replace 0%Z with (Qfloor 0) by reflexivity. apply Qfloor_resp_le. exact Hq. }
  lia.
Qed.

Lemma js_lt_below_floor (a : nat) (q : Q) :
  (0 <= q)%Q -> (a < Z.to_nat (Qfloor q))%nat -> js_lt a (JsNum q) = true.
Proof.
  intros Hq Ha. unfold js_lt.
  destruct (Qle_bool q (inject_Z (Z.of_nat a))) eqn:E; [|reflexivity].
  apply Qle_bool_iff in E. apply Qfloor_resp_le in E. rewrite Qfloor_Z in E.
  lia.
Qed.

(** With a fractional bound [q], attempt [floor q] may still be retried. *)
Lemma js_lt_floor_fractional (q : Q) :
  (0 <= q)%Q -> ~ (q == inject_Z (Z.of_nat (Z.to_nat (Qfloor q))))%Q ->
  js_lt (Z.to_nat (Qfloor q)) (JsNum q) = true.
Proof.
  intros Hq Hfrac. unfold js_lt.
  destruct (Qle_bool q _) eqn:E; [|reflexivity].
  apply Qle_bool_iff in E. exfalso. apply Hfrac.
  apply Qle_antisym; [exact E|].
  assert (0 <= Qfloor q)%Z.
  { replace 0%Z with (Qfloor 0) by reflexivity. apply Qfloor_resp_le. exact Hq. }
  rewrite Z2Nat.id by lia. apply Qfloor_le.
Qed.

Lemma loop_fractional_run c params env q err :
  maxRetries c = JsNum q -> (0 <= q)%Q ->
  ~ (q == inject_Z (Z.of_nat (Z.to_nat (Qfloor q))))%Q ->
  sendConvertRequest params (env_attempt env (Z.to_nat (Qfloor q))) = inr err ->
  isRetryAble (normalizeError err) = true ->
  forall (k a : nat) lastError (fuel : nat),
  (a + k = Z.to_nat (Qfloor q))%nat -> (S k < fuel)%nat ->
  (forall i : nat, (a <= i < Z.to_nat (Qfloor q))%nat ->
     retryable_failure params env i) ->
  fst (convert_loop c params env fuel a a lastError)
    = LFallOut (Some (normalizeError err)) /\
  count_sends (snd (convert_loop c params env fuel a a lastError)) = S k /\
  exists pre,
    snd (convert_loop c params env fuel a a lastError) =
    (pre ++ [EvSleep (timer_delay (getBackoffMs (Z.to_nat (Qfloor q))
                                     (env_random env (Z.to_nat (Qfloor q)))))])%list.
Proof.
  intros Hm Hq Hfrac Hlast Hretry.
  remember (Z.to_nat (Qfloor q)) as n eqn:En.
  intros k. induction k as [|k IH]; intros a lastError fuel Hak Hf Hfail.
  - replace a with n in * by lia.
    destruct fuel as [|[|fuel]]; [lia|lia|].
    rewrite convert_loop_S, Hm, js_le_below_floor by (auto; lia).
    rewrite Hlast. cbv zeta.
    rewrite En, js_lt_floor_fractional, <- En by (subst n; auto).
    rewrite Hretry. simpl andb.
    rewrite convert_loop_S, Hm.
    replace (js_le (S n) (JsNum q)) with false
      by (subst n; symmetry; apply loop_fuel_sufficient).
    simpl. split; [reflexivity|]. split; [reflexivity|].
    exists [EvSend n]. reflexivity.
  - destruct fuel as [|fuel]; [lia|].
    rewrite convert_loop_S, Hm, js_le_below_floor by (auto; lia).
    destruct (Hfail a ltac:(lia)) as (e & Hsend & He).
    rewrite Hsend. cbv zeta.
    rewrite js_lt_below_floor by (auto; lia).
    rewrite He. simpl andb.
    destruct (IH (S a) (Some (normalizeError e)) fuel
                ltac:(lia) ltac:(lia) ltac:(intros i Hi; apply Hfail; lia))
      as (IH1 & IH2 & pre & IH3).
    destruct (convert_loop c params env fuel (S a) (S a)
                (Some (normalizeError e))) as [ex tr].
    cbn [fst snd] in IH1, IH2, IH3 |- *.
    split; [exact IH1|]. split; [rewrite count_sends_retry, IH2; reflexivity|].
    exists (EvSend a :: EvSleep (timer_delay (getBackoffMs a (env_random env a))) :: pre).
    rewrite IH3. reflexivity.
Qed.

(** A fractional maxRetries [q] (one that is not an integer): if every
    attempt fails with a retryable error, [convert] makes [floor q + 1]
    requests, still sleeps after the last of them (a backoff after which no
    request follows) and then throws the last normalised error from after
    the loop. *)
Theorem convert_fractional_bound_trailing_sleep (c : Office2PDF)
    (params : ConvertParams) (env : Env) (q : Q) (err : Thrown) :
  maxRetries c = JsNum q -> (0 <= q)%Q ->
  ~ (q == inject_Z (Z.of_nat (Z.to_nat (Qfloor q))))%Q ->
  validateParams (env_fs env) params = None ->
  (forall i : nat, (i < Z.to_nat (Qfloor q))%nat -> retryable_failure params env i) ->
  sendConvertRequest params (env_attempt env (Z.to_nat (Qfloor q))) = inr err ->
  isRetryAble (normalizeError err) = true ->
  fst (convert c params env) = Threw (normalizeError err) /\
  count_sends (snd (convert c params env)) = S (Z.to_nat (Qfloor q)) /\
  exists pre,
    snd (convert c params env) =
    (pre ++ [EvSleep (timer_delay (getBackoffMs (Z.to_nat (Qfloor q))
                                     (env_random env (Z.to_nat (Qfloor q)))))])%list.
Proof.
  intros Hm Hq Hfrac Hv Hfail Hlast Hretry.
  destruct (loop_fractional_run c params env q err Hm Hq Hfrac Hlast Hretry
              (Z.to_nat (Qfloor q)) 0 None (loop_fuel (maxRetries c))
              ltac:(lia) ltac:(rewrite Hm; simpl; lia)
              ltac:(intros i Hi; apply Hfail; lia)) as (H1 & H2 & H3).
  unfold convert. rewrite Hv.
  destruct (convert_loop c params env (loop_fuel (maxRetries c)) 0 0 None)
    as [ex tr].
  cbn [fst snd] in H1, H2, H3 |- *. subst ex.
  split; [reflexivity|]. split; [exact H2 | exact H3].
Qed.

(** A permitted attempt always starts with its request. *)
Lemma loop_starts_with_send c params env fuel a draws lastError :
  js_le a (maxRetries c) = true ->
  exists tr', snd (convert_loop c params env (S fuel) a draws lastError)
              = EvSend a :: tr'.
Proof.
  intros Hle. rewrite convert_loop_S, Hle.
  destruct (sendConvertRequest params (env_attempt env a)) as [r|err];
    [eexists; reflexivity|].
  cbv zeta.
  destruct (js_lt a (maxRetries c) && isRetryAble (normalizeError err))%bool;
    [|eexists; reflexivity].
  destruct (convert_loop c params env fuel (S a) (S draws)
              (Some (normalizeError err))) as [ex tr].
  eexists. reflexivity.
Qed.

(** With an integer bound the loop never ends with a sleep: every backoff is
    followed by a request. *)
Lemma loop_integer_no_trailing_sleep c params env n :
  maxRetries c = JsNum (inject_Z (Z.of_nat n)) ->
  forall (fuel a draws : nat) lastError pre ms,
  (n < a + fuel)%nat ->
  snd (convert_loop c params env fuel a draws lastError) <> (pre ++ [EvSleep ms])%list.
Proof.
  intros Hm. induction fuel as [|fuel IH]; intros a draws lastError pre ms Hf.
  - simpl. destruct pre; discriminate.
  - rewrite convert_loop_S, Hm, js_le_nat.
    destruct (Nat.leb a n) eqn:Hle; [|simpl; destruct pre; discriminate].
    destruct (sendConvertRequest params (env_attempt env a)) as [r|err];
      [simpl; destruct pre as [|x [|y pre]]; discriminate|].
    cbv zeta. rewrite js_lt_nat.
    destruct (Nat.ltb a n && isRetryAble (normalizeError err))%bool eqn:Hr;
      [|simpl; destruct pre as [|x [|y pre]]; discriminate].
    apply andb_true_iff in Hr as [Hlt _]. apply Nat.ltb_lt in Hlt.
    destruct fuel as [|fuel']; [lia|].
    pose proof (IH (S a) (S draws) (Some (normalizeError err))) as IH'.
    destruct (loop_starts_with_send c params env fuel' (S a) (S draws)
                (Some (normalizeError err)))
      as [tr' Hs]; [rewrite Hm, js_le_nat; apply Nat.leb_le; lia|].
    destruct (convert_loop c params env (S fuel') (S a) (S draws)
                (Some (normalizeError err))) as [ex tr].
    cbn [snd] in Hs, IH' |- *. subst tr.
    intros H. destruct pre as [|x [|y pre']]; simpl in H.
    + discriminate H.
    + injection H as _ _ Htr. discriminate Htr.
    + injection H as _ _ Htr.
      apply (IH' pre' ms); [lia|]. exact Htr.
Qed.

(** With an integer maxRetries no backoff is wasted: the trace of [convert]
    never ends with a sleep, so every sleep is followed by a request. *)
Theorem convert_integer_bound_no_trailing_sleep (c : Office2PDF)
    (params : ConvertParams) (env : Env) (n : nat) :
  maxRetries c = JsNum (inject_Z (Z.of_nat n)) ->
  forall pre ms, snd (convert c params env) <> (pre ++ [EvSleep ms])%list.
Proof.
  intros Hm pre ms.
  pose proof (loop_integer_no_trailing_sleep c params env n Hm
                (loop_fuel (maxRetries c)) 0 0 None pre ms) as H.
  unfold convert.
  destruct (validateParams (env_fs env) params);
    [simpl; destruct pre; discriminate|].
  rewrite Hm, loop_fuel_nat in H. specialize (H ltac:(lia)).
  rewrite <- loop_fuel_nat, <- Hm in H.
  destruct (convert_loop c params env (loop_fuel (maxRetries c)) 0 0 None)
    as [ex tr].
  cbn [snd] in H.
  destruct ex; exact H.
Qed.

(** ** [path.dirname] on "dir/base" *)

Lemma list_ascii_of_string_app (s t : string) :
  list_ascii_of_string (s ++ t) = (list_ascii_of_string s ++ list_ascii_of_string t)%list.
Proof. induction s as [|c s IH]; simpl; [reflexivity | rewrite IH; reflexivity]. Qed.

Lemma string_of_list_ascii_app (l1 l2 : list ascii) :
  string_of_list_ascii (l1 ++ l2) = string_of_list_ascii l1 ++ string_of_list_ascii l2.
Proof. induction l1 as [|c l1 IH]; simpl; [reflexivity | rewrite IH; reflexivity]. Qed.

Lemma string_of_list_ascii_length (l : list ascii) :
  String.length (string_of_list_ascii l) = length l.
Proof. induction l as [|c l IH]; simpl; auto. Qed.

Lemma string_length_app (s t : string) :
  String.length (s ++ t) = (String.length s + String.length t)%nat.
Proof. induction s as [|c s IH]; simpl; auto. Qed.

Lemma substring_prefix_app (s t : string) :
  substring 0 (String.length s) (s ++ t) = s.
Proof.
  induction s as [|c s IH]; simpl; [destruct t; reflexivity | rewrite IH; reflexivity].
Qed.

Lemma substring_app_right (s t : string) (k : nat) :
  substring (String.length s) k (s ++ t) = substring 0 k t.
Proof. induction s as [|c s IH]; simpl; auto. Qed.

(** Scanning back over a non-empty run of non-slash characters stops at the
    slash before it. *)
Lemma dirname_scan_base (xs ys : list ascii) :
  (forall c, In c xs -> Ascii.eqb c "/" = false) ->
  forall i, dirname_scan (xs ++ "/"%char :: ys) i false = Some (i - length xs)%nat.
Proof.
  induction xs as [|x xs IH]; intros Hx i.
  - simpl. rewrite Nat.sub_0_r. reflexivity.
  - simpl. rewrite (Hx x (or_introl eq_refl)).
    rewrite IH by (intros c Hc; apply Hx; right; exact Hc).
    f_equal. lia.
Qed.

Lemma dirname_dir_base (dir base : string) :
  dir <> "" -> JsString.endsWith dir "/" = false ->
  base <> "" -> ~ In "/"%char (list_ascii_of_string base) ->
  dirname (dir ++ "/" ++ base) = dir.
Proof.
  intros Hd Hend Hb Hslash.
  assert (Hnb : forall c, In c (rev (list_ascii_of_string base)) ->
                Ascii.eqb c "/" = false).
  { intros c Hc. apply in_rev in Hc.
    destruct (Ascii.eqb_spec c "/"); [subst; contradiction | reflexivity]. }
  destruct (rev (list_ascii_of_string base)) as [|r0 rs] eqn:Er.
  { apply (f_equal (@rev ascii)) in Er. rewrite rev_involutive in Er.
    destruct base; [contradiction | discriminate Er]. }
  assert (Hlen : S (length rs) = String.length base).
  { rewrite <- list_ascii_of_string_length.
    change (S (length rs)) with (length (r0 :: rs)).
    rewrite <- Er, length_rev. reflexivity. }
  destruct dir as [|d0 dir']; [contradiction|].
  unfold dirname.
  change (list_ascii_of_string (String d0 dir' ++ "/" ++ base))
    with (d0 :: list_ascii_of_string (dir' ++ "/" ++ base)).
  cbv iota beta.
  rewrite list_ascii_of_string_app, rev_app_distr.
  change (list_ascii_of_string ("/" ++ base)) with ("/"%char :: list_ascii_of_string base).
  change ("/"%char :: list_ascii_of_string base)
    with (["/"%char] ++ list_ascii_of_string base)%list.
  rewrite rev_app_distr, Er, <- app_assoc.
  change ((r0 :: rs) ++ rev ["/"%char] ++ rev (list_ascii_of_string dir'))%list
    with (r0 :: (rs ++ "/"%char :: rev (list_ascii_of_string dir')))%list.
  simpl dirname_scan.
  rewrite (Hnb r0 (or_introl eq_refl)).
  rewrite dirname_scan_base by (intros c Hc; apply Hnb; right; exact Hc).
  replace (pred (String.length (dir' ++ String "/" base) - 0) - length rs)%nat
    with (S (String.length dir'))
    by (rewrite string_length_app; simpl; lia).
  destruct (Ascii.eqb d0 "/" && Nat.eqb (S (String.length dir')) 1)%bool
    eqn:Eroot.
  - exfalso. apply andb_true_iff in Eroot as [E1 E2].
    apply Ascii.eqb_eq in E1. apply Nat.eqb_eq in E2. subst d0.
    destruct dir'; [discriminate Hend | discriminate E2].
  - exact (substring_prefix_app (String d0 dir') ("/" ++ base)).
Qed.

(** Validation of a download path ["dir/base"] (with [base] a non-empty
    file name and [dir] not ending in a slash), once the input file checks
    have passed and no web stream is asked for: the writability check is
    made on [dir] itself (skipped only for the directory "."), and a
    non-writable [dir] is reported by name. *)
Theorem validateParams_download_dir (fs : FileSystem) (params : ConvertParams)
    (dir base : string) :
  JsString.trim (filePath params) <> "" ->
  fs_readable fs (filePath params) = true ->
  truthy_bool (asWebStream params) = false ->
  downloadToPath params = Some (dir ++ "/" ++ base) ->
  dir <> "" -> JsString.endsWith dir "/" = false ->
  base <> "" -> ~ In "/"%char (list_ascii_of_string base) ->
  validateParams fs params =
    if String.eqb dir "." then None
    else if fs_writable fs dir then None
    else Some (invalid_request ("Download directory not writable: " ++ dir)).
Proof.
  intros Htrim Hread Hstream Hdl Hd Hend Hb Hslash.
  unfold validateParams.
  destruct (String.eqb_spec (JsString.trim (filePath params)) "") as [E|_];
    [contradiction|].
  rewrite Hread, Hstream, Hdl. simpl negb. cbv iota.
  assert (Ht : truthy_string (Some (dir ++ "/" ++ base)) = true).
  { unfold truthy_string. destruct dir; [contradiction | reflexivity]. }
  rewrite Ht. cbv iota zeta.
  change (dir ++ String "/" base) with (dir ++ "/" ++ base).
  rewrite (dirname_dir_base dir base Hd Hend Hb Hslash).
  destruct (String.eqb_spec dir "") as [E|_]; [contradiction|].
  destruct (String.eqb dir "."); simpl; [reflexivity|].
  destruct (fs_writable fs dir); reflexivity.
Qed.

(** ** The request sent by [sendConvertRequest] *)

(** A form field value: the [File] made by [fileFromPath(path, fileName)]
    (when reading it succeeds), or a text value. *)
Inductive FormValue : Type :=
| FormFile (path : string) (name : option string)
| FormText (v : string).

Definition FormData := list (string * FormValue).

(** The entries after the first one named [name] are dropped, that one is
    replaced in place. *)
Fixpoint form_replace (form : FormData) (name : string) (v : FormValue)
    (seen : bool) : FormData :=
  match form with
  | [] => []
  | kv :: rest =>
      if String.eqb (fst kv) name then
        if seen then form_replace rest name v true
        else (name, v) :: form_replace rest name v true
      else kv :: form_replace rest name v seen
  end.

(** [FormData.prototype.set] *)
Definition form_set (form : FormData) (name : string) (v : FormValue) : FormData :=
  if existsb (fun kv => String.eqb (fst kv) name) form
  then form_replace form name v false
  else (form ++ [(name, v)])%list.

(** [buildFormData] *)
Definition buildFormData (params : ConvertParams) : FormData :=
  let form := form_set [] "file" (FormFile (filePath params) (fileName params)) in
  let form := form_set form "output" (FormText (opt_default (output params) "pdf")) in
  if truthy_string (password params) then
    form_set form "password" (FormText (opt_default (password params) ""))
  else form.

Record FetchRequest : Type := mkRequest {
  req_url : string;
  req_method : string;
  req_headers : list (string * string);
  req_body : FormData
}.

(** The [url] computed by [convert] and passed to every attempt. *)
Definition convert_url (c : Office2PDF) : string :=
  baseUrl c ++ "/api/pdf/preview".

(** The [fetch] call of [sendConvertRequest] (its signal apart). *)
Definition request_of (c : Office2PDF) (params : ConvertParams) : FetchRequest :=
  {| req_url := convert_url c;
     req_method := "POST";
     req_headers := [("x-api-key", apiKey c); ("User-Agent", userAgent c)];
     req_body := buildFormData params |}.

(** ** [trim] on a string that is already trimmed *)

Lemma trim_start_app (s t : string) :
  JsString.trim_start s <> "" ->
  JsString.trim_start (s ++ t) = JsString.trim_start s ++ t.
Proof.
  induction s as [|c s IH]; intros H; [contradiction|].
  simpl in H |- *. destruct (JsString.is_ws c); [apply IH; exact H | reflexivity].
Qed.

Lemma trim_start_shorter (s : string) :
  JsString.trim_start s = s \/
  (String.length (JsString.trim_start s) < String.length s)%nat.
Proof.
  induction s as [|c s IH]; [left; reflexivity|].
  simpl. destruct (JsString.is_ws c); [|left; reflexivity].
  right. destruct IH as [-> | H]; simpl; lia.
Qed.

Lemma trim_start_length (s : string) :
  (String.length (JsString.trim_start s) <= String.length s)%nat.
Proof. destruct (trim_start_shorter s) as [-> | H]; lia. Qed.

Lemma trim_end_length (s : string) :
  (String.length (JsString.trim_end s) <= String.length s)%nat.
Proof.
  unfold JsString.trim_end.
  rewrite string_of_list_ascii_length, length_rev, list_ascii_of_string_length.
  eapply Nat.le_trans; [apply trim_start_length|].
  rewrite string_of_list_ascii_length, length_rev, list_ascii_of_string_length.
  apply le_n.
Qed.

Lemma trim_fixed_start (s : string) :
  JsString.trim s = s -> JsString.trim_start s = s.
Proof.
  intros H. destruct (trim_start_shorter s) as [E | Hlt]; [exact E|].
  exfalso. pose proof (trim_end_length (JsString.trim_start s)) as Hle.
  unfold JsString.trim in H. rewrite H in Hle. lia.
Qed.

(** [trim] leaves a string alone when its last character is not white. *)
Lemma trim_end_last_not_ws (s : string) (c : ascii) :
  JsString.is_ws c = false ->
  JsString.trim_end (s ++ String c "") = s ++ String c "".
Proof.
  intros Hc. unfold JsString.trim_end.
  rewrite list_ascii_of_string_app. simpl list_ascii_of_string.
  rewrite rev_app_distr. simpl.
  rewrite Hc. simpl.
  rewrite list_ascii_of_string_of_list_ascii.
  rewrite rev_involutive.
  rewrite string_of_list_ascii_app, string_of_list_ascii_of_string.
  reflexivity.
Qed.

(** One trailing slash added to a trimmed base URL is what
    [normalizeBaseUrl] removes. *)
Lemma normalizeBaseUrl_slash (u : string) :
  u <> "" -> JsString.trim u = u -> JsString.endsWith u "/" = false ->
  normalizeBaseUrl (Some (u ++ "/")) = u /\ normalizeBaseUrl (Some u) = u.
Proof.
  intros Hu Ht Hend.
  assert (Htu : truthy_string (Some u) = true).
  { unfold truthy_string. destruct u; [contradiction | reflexivity]. }
  assert (Htus : truthy_string (Some (u ++ "/")) = true).
  { unfold truthy_string. destruct u; [contradiction | reflexivity]. }
  unfold normalizeBaseUrl. rewrite Htu, Htus. split.
  - assert (Hs : JsString.trim_start u = u) by (apply trim_fixed_start; exact Ht).
    assert (Htr : JsString.trim (u ++ "/") = u ++ "/").
    { unfold JsString.trim. rewrite trim_start_app by (rewrite Hs; exact Hu).
      rewrite Hs. apply trim_end_last_not_ws. reflexivity. }
    rewrite Htr.
    assert (He : JsString.endsWith (u ++ "/") "/" = true).
    { unfold JsString.endsWith. rewrite string_length_app. simpl.
      replace (String.length u + 1 - 1)%nat with (String.length u) by lia.
      rewrite substring_app_right, Nat.add_1_r. reflexivity. }
    rewrite He. unfold JsString.slice_drop_last.
    rewrite string_length_app. simpl.
    replace (String.length u + 1 - 1)%nat with (String.length u) by lia.
    apply substring_prefix_app.
  - rewrite Ht, Hend. reflexivity.
Qed.

(** Every request of a client goes to [<base>/api/pdf/preview], where a base
    URL given with or without one trailing slash makes no difference, as a
    POST carrying the trimmed (non-empty) API key in [x-api-key] and the
    user agent ("office2pdf-node" unless one is given), with the form of
    [buildFormData]. *)
Theorem client_request (key u : string) (ua : option string)
    (tm mr : option JsNumber) (params : ConvertParams) :
  u <> "" -> JsString.trim u = u -> JsString.endsWith u "/" = false ->
  JsString.trim key <> "" ->
  forall u', u' = u \/ u' = u ++ "/" ->
  exists c,
    new_Office2PDF (mkOptions key (Some u') tm ua mr) = inl c /\
    request_of c params =
      {| req_url := u ++ "/api/pdf/preview";
         req_method := "POST";
         req_headers := [("x-api-key", JsString.trim key);
                         ("User-Agent", opt_default ua "office2pdf-node")];
         req_body := buildFormData params |}.
Proof.
  intros Hu Ht Hend Hkey u' Hu'.
  unfold new_Office2PDF. cbn [opt_apiKey opt_baseUrl opt_userAgent].
  destruct (String.eqb_spec (JsString.trim key) "") as [E|_]; [contradiction|].
  eexists. split; [reflexivity|].
  unfold request_of, convert_url. cbn [baseUrl apiKey userAgent].
  destruct (normalizeBaseUrl_slash u Hu Ht Hend) as [H1 H2].
  destruct Hu' as [-> | ->]; [rewrite H2 | rewrite H1]; reflexivity.
Qed.

(** ** Where the outcome of [convert] comes from *)

Lemma loop_provenance c params env :
  forall fuel a draws lastError,
  (fst (convert_loop c params env fuel a draws lastError) = LFallOut lastError /\
   snd (convert_loop c params env fuel a draws lastError) = []) \/
  exists n, (a <= n)%nat /\
    count_sends (snd (convert_loop c params env fuel a draws lastError)) = (S n - a)%nat /\
    (forall i, (a <= i < n)%nat -> retryable_failure params env i) /\
    match fst (convert_loop c params env fuel a draws lastError) with
    | LReturn r => sendConvertRequest params (env_attempt env n) = inl r
    | LThrow e | LFallOut (Some e) =>
        exists err, sendConvertRequest params (env_attempt env n) = inr err /\
                    e = normalizeError err
    | LFallOut None => False
    end.
Proof.
  induction fuel as [|fuel IH]; intros a draws lastError; [left; split; reflexivity|].
  rewrite convert_loop_S.
  destruct (js_le a (maxRetries c)); [|left; split; reflexivity].
  destruct (sendConvertRequest params (env_attempt env a)) as [r|err] eqn:Hs.
  { right. exists a. split; [lia|]. split; [cbv [snd count_sends filter length]; lia|].
    split; [intros i Hi; lia | exact Hs]. }
  cbv zeta.
  destruct (js_lt a (maxRetries c) && isRetryAble (normalizeError err))%bool eqn:Hr.
  2:{ right. exists a. split; [lia|]. split; [cbv [snd count_sends filter length]; lia|].
      split; [intros i Hi; lia | exists err; split; [exact Hs | reflexivity]]. }
  apply andb_true_iff in Hr as [_ Hr].
  destruct (IH (S a) (S draws) (Some (normalizeError err))) as [[H1 H2] | (n & Hn & Hc & Hf & Hm)];
    destruct (convert_loop c params env fuel (S a) (S draws)
                (Some (normalizeError err))) as [ex tr];
    cbn [fst snd] in *; right.
  - subst ex tr. exists a. split; [lia|]. split; [cbv [snd count_sends filter length]; lia|].
    split; [intros i Hi; lia | exists err; split; [exact Hs | reflexivity]].
  - exists n. split; [lia|].
    split; [rewrite count_sends_retry, Hc; lia|].
    split; [|exact Hm].
    intros i Hi. destruct (Nat.eq_dec i a) as [->|Hne].
    + exists err. split; [exact Hs | exact Hr].
    + apply Hf. lia.
Qed.

(** [convert] returns only the result of its last request, all earlier
    requests having failed with retryable errors; it throws only a
    validation error or the "Unexpected conversion failure" (both without
    any request), or the normalised error of its last request, all earlier
    ones having failed with retryable errors. *)
Theorem convert_outcome_provenance (c : Office2PDF) (params : ConvertParams)
    (env : Env) :
  (forall r, fst (convert c params env) = Returned r ->
     exists n, sendConvertRequest params (env_attempt env n) = inl r /\
       count_sends (snd (convert c params env)) = S n /\
       forall i, (i < n)%nat -> retryable_failure params env i) /\
  (forall e, fst (convert c params env) = Threw e ->
     (validateParams (env_fs env) params = Some e /\ snd (convert c params env) = []) \/
     (e = unexpected_failure /\ snd (convert c params env) = []) \/
     exists n err, sendConvertRequest params (env_attempt env n) = inr err /\
       e = normalizeError err /\
       count_sends (snd (convert c params env)) = S n /\
       forall i, (i < n)%nat -> retryable_failure params env i).
Proof.
  unfold convert.
  destruct (validateParams (env_fs env) params) as [ve|] eqn:Hv.
  { split; [intros r H; discriminate H|].
    intros e H. injection H as <-. left. split; reflexivity. }
  pose proof (loop_provenance c params env (loop_fuel (maxRetries c)) 0 0 None) as Hp.
  destruct (convert_loop c params env (loop_fuel (maxRetries c)) 0 0 None)
    as [ex tr].
  cbn [fst snd] in Hp.
  destruct Hp as [[-> ->] | (n & _ & Hc & Hf & Hm)].
  - split; [intros r H; discriminate H|].
    intros e H. injection H as <-. right. left. split; reflexivity.
  - rewrite Nat.sub_0_r in Hc.
    assert (Hf' : forall i, (i < n)%nat -> retryable_failure params env i)
      by (intros i Hi; apply Hf; lia).
    destruct ex as [r|e|[e|]]; cbn [fst snd].
    + split; [|intros e H; discriminate H].
      intros r' H. injection H as <-. exists n. auto.
    + split; [intros r H; discriminate H|].
      intros e' H. injection H as <-. right. right.
      destruct Hm as (err & Hs & ->). exists n, err. auto.
    + split; [intros r H; discriminate H|].
      intros e' H. injection H as <-. right. right.
      destruct Hm as (err & Hs & ->). exists n, err. auto.
    + contradiction.
Qed.

(** Retry eligibility of an HTTP error by its kind: a RATE_LIMITED error is
    always retried, a SERVER_ERROR only for statuses up to 599, an
    INVALID_REQUEST only for status 408, and UNAUTHORIZED, FORBIDDEN,
    NOT_FOUND, QUOTA_EXCEEDED and UNKNOWN never. *)
Theorem http_error_retry_by_kind (res : Response) (params : ConvertParams)
    (body_io : option Thrown) (e : Office2PDFError) :
  res_ok res = false ->
  handleResponse res params body_io = inr (TO2P e) ->
  isRetryAble e = true <->
  code e = RATE_LIMITED \/
  (code e = SERVER_ERROR /\ (res_status res <= 599)%Z) \/
  (code e = INVALID_REQUEST /\ res_status res = 408%Z).
Proof.
  intros Hok H. unfold handleResponse in H. rewrite Hok in H.
  injection H as <-. unfold isRetryAble. cbn [code status].
  destruct (mapStatusToCode_not_transient (res_status res)) as [-> ->].
  simpl orb. cbv iota.
  unfold isRetryAbleStatus, mapStatusToCode, status_map.
  set (s := res_status res).
  repeat match goal with
  | |- context [Z.eqb ?a ?b] => destruct (Z.eqb_spec a b)
  | |- context [Z.leb ?a ?b] => destruct (Z.leb_spec a b)
  | |- context [Z.ltb ?a ?b] => destruct (Z.ltb_spec a b)
  end; simpl; split; intros Hx;
  repeat match goal with
  | H : _ \/ _ |- _ => destruct H
  | H : _ /\ _ |- _ => destruct H
  end;
  try discriminate; try lia; auto;
  try (left; reflexivity); try (right; left; split; [reflexivity | lia]);
  try (right; right; split; [reflexivity | lia]).
Qed.

(** A client built by the constructor with a maxRetries other than NaN
    (negative values included) always makes at least one request once
    validation has passed, starting with attempt 0. *)
Theorem constructed_client_attempts (opts : Office2PDFClientOptions) (c : Office2PDF)
    (params : ConvertParams) (env : Env) :
  new_Office2PDF opts = inl c -> opt_maxRetries opts <> Some JsNaN ->
  validateParams (env_fs env) params = None ->
  exists tr, snd (convert c params env) = EvSend 0 :: tr /\
             (1 <= count_sends (snd (convert c params env)))%nat.
Proof.
  intros Hc Hn Hv.
  destruct (new_Office2PDF_bound opts c Hc Hn) as (q & Hm & Hq).
  unfold convert. rewrite Hv.
  assert (Hf : loop_fuel (maxRetries c) = S (S (Z.to_nat (Qfloor q))))
    by (rewrite Hm; reflexivity).
  rewrite Hf.
  destruct (loop_starts_with_send c params env (S (Z.to_nat (Qfloor q))) 0 0 None)
    as [tr Htr]; [rewrite Hm; apply js_le_0; exact Hq|].
  destruct (convert_loop c params env (S (S (Z.to_nat (Qfloor q)))) 0 0 None)
    as [ex tr'].
  cbn [snd] in Htr. subst tr'.
  exists tr. destruct ex as [r|e|[e|]]; cbn [snd];
    (split; [reflexivity | cbv [count_sends filter length]; lia]).
Qed.

(** ** No fallback for a numeric bound *)

(** For a stored maxRetries that is a number [q >= 0], control never leaves
    the loop of [convert] without a recorded error ([LFallOut None], the only
    exit after which the generic "Unexpected conversion failure" is thrown);
    for an integer maxRetries, control never leaves the loop through its
    condition at all: the last permitted attempt returns or throws. *)
Theorem convert_numeric_bound_no_fallback :
  (forall c params env q,
     maxRetries c = JsNum q -> (0 <= q)%Q ->
     fst (convert_loop c params env (loop_fuel (maxRetries c)) 0 0 None)
       <> LFallOut None) /\
  (forall c params env (N : nat) le,
     maxRetries c = JsNum (inject_Z (Z.of_nat N)) ->
     fst (convert_loop c params env (loop_fuel (maxRetries c)) 0 0 None)
       <> LFallOut le).
Proof.
  split.
  - intros c params env q Hm Hq.
    rewrite Hm. simpl loop_fuel.
    rewrite convert_loop_S, Hm, (js_le_0 q Hq).
    destruct (sendConvertRequest params (env_attempt env 0)) as [r|err];
      [simpl; discriminate|].
    cbv zeta.
    destruct (js_lt 0 (JsNum q) && isRetryAble (normalizeError err))%bool;
      [|simpl; discriminate].
    pose proof (loop_some_no_fallout_none c params env
                  (S (Z.to_nat (Qfloor q))) 1 1 (normalizeError err)) as H.
    destruct (convert_loop c params env (S (Z.to_nat (Qfloor q))) 1 1
                (Some (normalizeError err))) as [ex tr].
    exact H.
  - intros c params env N le Hm.
    apply (loop_integer_no_fallout c params env N Hm N 0 0 None); [lia|].
    rewrite Hm, loop_fuel_nat. lia.
Qed.

(** ** Rounding to doubles, and the first backoffs *)

Lemma qlog2_spec (x : Q) : (0 < x)%Q -> (Qpower 2 (qlog2 x) <= x)%Q.
Proof.
  intros Hx. unfold qlog2.
  destruct (Qle_bool (Qpower 2 (Z.log2 (Qnum x) - Z.log2 (Zpos (Qden x)))) x) eqn:E.
  - apply Qle_bool_iff. exact E.
  - destruct x as [n d]. cbn [Qnum Qden] in *.
    assert (Hn : (0 < n)%Z) by (unfold Qlt in Hx; simpl in Hx; lia).
    destruct (Z.log2_spec n Hn) as [Hn1 Hn2].
    destruct (Z.log2_spec (Zpos d) eq_refl) as [Hd1 Hd2].
    pose proof (Z.log2_nonneg n). pose proof (Z.log2_nonneg (Zpos d)).
    set (ln := Z.log2 n) in *. set (ld := Z.log2 (Zpos d)) in *.
    assert (Hp : (Qpower 2 (ln - ld - 1) * inject_Z (2 ^ (ld + 1)) ==
                  inject_Z (2 ^ ln))%Q).
    { rewrite !Zpower_Qpower by lia.
      rewrite <- Qpower_plus by discriminate.
      replace (ln - ld - 1 + (ld + 1))%Z with ln by ring. reflexivity. }
    assert (Hpos : (0 < inject_Z (2 ^ (ld + 1)))%Q).
    { change 0%Q with (inject_Z 0). rewrite <- Zlt_Qlt.
      apply Z.pow_pos_nonneg; lia. }
    apply (Qmult_le_r _ _ _ Hpos). rewrite Hp.
    rewrite Z.add_1_r in *.
    unfold Qle, Qmult; cbn [Qnum Qden inject_Z].
    assert (2 ^ ln * Zpos d <= n * 2 ^ Z.succ ld)%Z by nia.
    lia.
Qed.

Lemma round_half_even_le (z : Q) : (inject_Z (round_half_even z) <= z + (1 # 2))%Q.
Proof.
  unfold round_half_even.
  pose proof (Qfloor_le z) as H1.
  destruct (Qcompare_spec (z - inject_Z (Qfloor z)) (1 # 2)) as [H|H|H];
    [destruct (Z.even (Qfloor z))| |];
    rewrite ?inject_Z_plus; change (inject_Z 1) with 1%Q; lra.
Qed.

Lemma round_half_even_nonneg (z : Q) : (0 <= z)%Q -> (0 <= round_half_even z)%Z.
Proof.
  intros Hz. unfold round_half_even.
  assert (0 <= Qfloor z)%Z.
  { change 0%Z with (Qfloor 0). apply Qfloor_resp_le. exact Hz. }
  destruct (Qcompare (z - inject_Z (Qfloor z)) (1 # 2));
    [destruct (Z.even (Qfloor z))| |]; lia.
Qed.

Lemma round_double_pos (x : Q) : (0 < x)%Q ->
  exists y,
    (0 <= y)%Q /\
    (y <= x + Qpower 2 (Z.max (qlog2 x - 52) (-1074)) * (1 # 2))%Q /\
    round_double x = if Qle_bool (Qpower 2 1024) y then DInf else DFin y.
Proof.
  intros Hx. unfold round_double.
  replace (Qle_bool x 0) with false
    by (symmetry; apply Bool.not_true_iff_false; rewrite Qle_bool_iff; lra).
  set (s := Z.max (qlog2 x - 52) (-1074)).
  assert (HP : (0 < Qpower 2 s)%Q) by (apply Qpower_0_lt; lra).
  set (P := Qpower 2 s) in *.
  exists (inject_Z (round_half_even (x / P)) * P)%Q.
  split; [|split; [|reflexivity]].
  - apply Qmult_le_0_compat; [|lra].
    change 0%Q with (inject_Z 0). rewrite <- Zle_Qle.
    apply round_half_even_nonneg.
    apply Qle_shift_div_l; [exact HP|]. lra.
  - apply (Qle_trans _ ((x / P + (1 # 2)) * P)).
    + apply Qmult_le_compat_r; [apply round_half_even_le | lra].
    + rewrite Qle_lteq. right. field. intros H. rewrite H in HP. lra.
Qed.

Lemma jitter_double (r : Q) :
  (0 <= r <= 1 - (1 # 9007199254740992))%Q ->
  exists j, js_floor (js_mul (DFin r) (DFin 150)) = DFin (inject_Z j) /\
            (0 <= j < 150)%Z.
Proof.
  intros [H0 H1]. cbn [js_mul].
  destruct (Qle_bool (r * 150) 0) eqn:E.
  { exists 0%Z. unfold round_double. rewrite E. split; [reflexivity | lia]. }
  assert (Hx : (0 < r * 150)%Q).
  { apply Bool.not_true_iff_false in E. rewrite Qle_bool_iff in E. lra. }
  destruct (round_double_pos _ Hx) as (y & Hy0 & Hy & ->).
  assert (Hl : (qlog2 (r * 150) <= 7)%Z).
  { destruct (Z.le_gt_cases (qlog2 (r * 150)) 7) as [|Hg]; [assumption|].
    pose proof (qlog2_spec _ Hx) as Hs.
    pose proof (Qpower_le_compat_l 2 8 (qlog2 (r * 150)) ltac:(lia) ltac:(lra)).
    assert (Qpower 2 8 == 256)%Q by reflexivity. lra. }
  assert (HP : (Qpower 2 (Z.max (qlog2 (r * 150) - 52) (-1074)) <= Qpower 2 (-45))%Q)
    by (apply Qpower_le_compat_l; [lia | lra]).
  assert (Qpower 2 (-45) == 1 # 35184372088832)%Q by reflexivity.
  assert (Hy150 : (y < 150)%Q) by lra.
  replace (Qle_bool (Qpower 2 1024) y) with false.
  2:{ symmetry. apply Bool.not_true_iff_false. rewrite Qle_bool_iff.
      assert (150 <= Qpower 2 1024)%Q by (apply Qle_bool_iff; vm_compute; reflexivity).
      lra. }
  exists (Qfloor y). split; [reflexivity|]. split.
  - change 0%Z with (Qfloor 0). apply Qfloor_resp_le. exact Hy0.
  - rewrite Zlt_Qlt. pose proof (Qfloor_le y). change (inject_Z 150) with 150%Q. lra.
Qed.

(** The first 23 backoffs, for every jitter [j] in [[0, 150)], computed in
    double arithmetic and passed through the timer. *)
Lemma small_backoffs_exact :
  forallb (fun a =>
    forallb (fun j =>
      Z.eqb (timer_delay (js_add (js_mul (DFin 300) (math_pow2 a))
                                  (DFin (inject_Z (Z.of_nat j)))))
            (300 * 2 ^ Z.of_nat a + Z.of_nat j))
      (seq 0 150))
    (seq 0 23) = true.
Proof. vm_compute. reflexivity. Qed.

Lemma small_backoff_value (a : nat) (j : Z) :
  (a <= 22)%nat -> (0 <= j < 150)%Z ->
  timer_delay (js_add (js_mul (DFin 300) (math_pow2 a)) (DFin (inject_Z j)))
  = (300 * 2 ^ Z.of_nat a + j)%Z.
Proof.
  intros Ha Hj.
  pose proof small_backoffs_exact as H.
  rewrite forallb_forall in H.
  specialize (H a ltac:(apply in_seq; lia)).
  rewrite forallb_forall in H.
  specialize (H (Z.to_nat j) ltac:(apply in_seq; lia)).
  rewrite Z2Nat.id in H by lia.
  apply Z.eqb_eq. exact H.
Qed.

Lemma backoff_small (a : nat) (r : Q) :
  (a <= 22)%nat -> (0 <= r <= 1 - (1 # 9007199254740992))%Q ->
  exists j, js_floor (js_mul (DFin r) (DFin 150)) = DFin (inject_Z j) /\
            (0 <= j < 150)%Z /\
            timer_delay (getBackoffMs a r) = (300 * 2 ^ Z.of_nat a + j)%Z.
Proof.
  intros Ha Hr.
  destruct (jitter_double r Hr) as (j & Hj & Hj0).
  exists j. split; [exact Hj|]. split; [exact Hj0|].
  unfold getBackoffMs. cbv zeta. rewrite Hj.
  apply small_backoff_value; assumption.
Qed.

(** The backoff before attempt [n], for [1 <= n <= 23]: its timer waits
    [300 * 2^(n-1) + j] milliseconds, where [j] is the value of
    [Math.floor(Math.random() * 150)] for the draw of that very retry, and
    [0 <= j < 150] whenever the draw is a double in [[0, 1)] (all of them are
    at most [1 - 2^-53]). *)
Theorem convert_backoff_exponential (c : Office2PDF) (params : ConvertParams)
    (env : Env) (pre post : list Event) (ms : Z) (n : nat) :
  snd (convert c params env) = (pre ++ EvSleep ms :: EvSend n :: post)%list ->
  (n <= 23)%nat ->
  (0 <= env_random env (n - 1) <= 1 - (1 # 9007199254740992))%Q ->
  (1 <= n)%nat /\
  exists j,
    js_floor (js_mul (DFin (env_random env (n - 1))) (DFin 150)) = DFin (inject_Z j) /\
    (0 <= j < 150)%Z /\
    ms = (300 * 2 ^ Z.of_nat (n - 1) + j)%Z.
Proof.
  intros H Hn Hr.
  unfold convert in H.
  destruct (validateParams (env_fs env) params).
  { simpl in H. destruct pre; discriminate. }
  pose proof (loop_sleeps_before c params env (loop_fuel (maxRetries c)) 0 None)
    as [_ Hsl].
  destruct (convert_loop c params env (loop_fuel (maxRetries c)) 0 0 None)
    as [ex tr].
  assert (Htr : tr = (pre ++ EvSleep ms :: EvSend n :: post)%list)
    by (destruct ex as [| |[]]; exact H).
  destruct (Hsl pre ms n post Htr) as [Hn1 Hms].
  split; [exact Hn1|].
  destruct (backoff_small (n - 1) _ ltac:(lia) Hr) as (j & Hj & Hj0 & Hd).
  exists j. split; [exact Hj|]. split; [exact Hj0|].
  rewrite Hms. exact Hd.
Qed.

(* ------------------------------------------------------------------------- *)
(** * Instances of the further properties *)

Definition res_503 : Response := res_json_error 503 (JObject []).

Definition env_503_half : Env :=
  mkEnv fs_all (fun _ => ae_of (TRespond res_503)) (fun _ => 1 # 2).

Definition fs_none_writable : FileSystem := mkFs (fun _ => true) (fun _ => false).

Definition params_dl_tmp : ConvertParams :=
  mkParams "in.docx" None None None false (Some "/tmp/out/r.pdf") None.

Lemma handleResponse_error_retryable_witness :
  exists err, handleResponse res_503 params_buffer None = inr err /\
              isRetryAble (normalizeError err) = true.
Proof.
  eexists. split; [reflexivity|].
  apply (handleResponse_error_retryable res_503 params_buffer _ eq_refl).
  split; reflexivity.
Defined.

Lemma normalizeError_foreign_retryable_witness :
  status (normalizeError (TError "TypeError" "fetch failed")) = None /\
  isRetryAble (normalizeError (TError "TypeError" "fetch failed")) = true.
Proof.
  destruct (normalizeError_foreign_retryable (TError "TypeError" "fetch failed")
              ltac:(intros e H; discriminate H)) as (Hs & _ & Hr & _).
  split; [exact Hs|].
  apply Hr. exists "TypeError", "fetch failed". right. reflexivity.
Defined.

Lemma mergeAbortSignals_aborted_witness :
  exists s, mergeAbortSignals [Some NotAborted; Some (Aborted default_abort_reason)]
              = Some s /\ signal_aborted s = true.
Proof.
  eexists. split; [reflexivity|].
  destruct (mergeAbortSignals_aborted
              [Some NotAborted; Some (Aborted default_abort_reason)]) as [_ H].
  apply (proj1 (H _ eq_refl)).
  exists default_abort_reason. right. left. reflexivity.
Defined.

Lemma convert_fractional_bound_trailing_sleep_witness :
  exists err,
    sendConvertRequest params_buffer (env_attempt env_503_half 1) = inr err /\
    fst (convert (client_with (JsNum (3 # 2))) params_buffer env_503_half)
      = Threw (normalizeError err) /\
    count_sends (snd (convert (client_with (JsNum (3 # 2))) params_buffer env_503_half))
      = 2%nat.
Proof.
  eexists. split; [reflexivity|].
  destruct (convert_fractional_bound_trailing_sleep
              (client_with (JsNum (3 # 2))) params_buffer env_503_half (3 # 2) _
              eq_refl
              ltac:(unfold Qle; simpl; lia)
              ltac:(intros H; vm_compute in H; discriminate H)
              eq_refl
              ltac:(intros i Hi; eexists; split;
                    [reflexivity | reflexivity])
              eq_refl eq_refl) as (H1 & H2 & _).
  split; [exact H1 | exact H2].
Defined.

Lemma convert_integer_bound_no_trailing_sleep_witness :
  snd (convert (client_with (JsNum (inject_Z (Z.of_nat 2)))) params_buffer env_503_half)
    <> ([EvSend 0; EvSleep 375; EvSend 1; EvSleep 675; EvSend 2] ++ [EvSleep 1275])%list.
Proof.
  exact (convert_integer_bound_no_trailing_sleep
           (client_with (JsNum (inject_Z (Z.of_nat 2)))) params_buffer env_503_half 2
           eq_refl _ _).
Defined.

Lemma validateParams_download_dir_witness :
  validateParams fs_none_writable params_dl_tmp =
    Some (invalid_request ("Download directory not writable: " ++ "/tmp/out")).
Proof.
  rewrite (validateParams_download_dir fs_none_writable params_dl_tmp "/tmp/out" "r.pdf"
             ltac:(discriminate) eq_refl eq_refl eq_refl ltac:(discriminate) eq_refl
             ltac:(discriminate)
             ltac:(intros H; simpl in H;
                   repeat (destruct H as [H|H]; [discriminate H|]); exact H)).
  reflexivity.
Defined.

Lemma client_request_witness :
  exists c,
    new_Office2PDF (mkOptions "op2p_test_123" (Some "https://api.example/") None None None)
      = inl c /\
    req_url (request_of c params_buffer) = "https://api.example/api/pdf/preview" /\
    req_headers (request_of c params_buffer)
      = [("x-api-key", "op2p_test_123"); ("User-Agent", "office2pdf-node")].
Proof.
  destruct (client_request "op2p_test_123" "https://api.example" None None None
              params_buffer ltac:(discriminate) eq_refl eq_refl ltac:(discriminate)
              ("https://api.example" ++ "/") (or_intror eq_refl)) as (c & Hc & Hr).
  exists c. split; [exact Hc|]. rewrite Hr. split; reflexivity.
Defined.

Lemma convert_outcome_provenance_witness :
  exists r n,
    fst (convert (client_with (JsNum (inject_Z (Z.of_nat 1)))) params_buffer
           env_429_then_ok) = Returned r /\
    sendConvertRequest params_buffer (env_attempt env_429_then_ok n) = inl r /\
    n = 1%nat.
Proof.
  destruct (convert_outcome_provenance (client_with (JsNum (inject_Z (Z.of_nat 1))))
              params_buffer env_429_then_ok) as [H _].
  destruct (fst (convert (client_with (JsNum (inject_Z (Z.of_nat 1)))) params_buffer
                  env_429_then_ok)) as [r|e] eqn:E.
  - destruct (H r eq_refl) as (n & Hs & Hc & _).
    exists r, n. split; [reflexivity|]. split; [exact Hs|].
    vm_compute in Hc. injection Hc as <-. reflexivity.
  - vm_compute in E. discriminate E.
Defined.

Lemma http_error_retry_by_kind_witness :
  exists e, handleResponse (res_json_error 429 (JObject [])) params_buffer None
              = inr (TO2P e) /\ isRetryAble e = true.
Proof.
  eexists. split; [reflexivity|].
  apply (proj2 (http_error_retry_by_kind (res_json_error 429 (JObject []))
                  params_buffer None _ eq_refl eq_refl)).
  left. reflexivity.
Defined.

Lemma constructed_client_attempts_witness :
  exists c, new_Office2PDF (opts_with (Some (JsNum (-1)))) = inl c /\
            (1 <= count_sends (snd (convert c params_buffer env_401)))%nat.
Proof.
  eexists. split; [reflexivity|].
  destruct (constructed_client_attempts (opts_with (Some (JsNum (-1)))) _
              params_buffer env_401 eq_refl ltac:(discriminate) eq_refl)
    as (tr & _ & H).
  exact H.
Defined.

(** Instance of [convert_numeric_bound_no_fallback]: a zero bound and a bound
    of 2. *)
Lemma convert_numeric_bound_no_fallback_witness :
  fst (convert_loop (client_with (JsNum 0)) params_buffer env_401
         (loop_fuel (JsNum 0)) 0 0 None) <> LFallOut None /\
  fst (convert_loop (client_with (JsNum (inject_Z (Z.of_nat 2)))) params_buffer
         env_429_then_ok (loop_fuel (JsNum (inject_Z (Z.of_nat 2)))) 0 0 None)
    <> LFallOut None.
Proof.
  destruct convert_numeric_bound_no_fallback as (H2 & H3).
  split.
  - apply (H2 (client_with (JsNum 0)) params_buffer env_401 0);
      [reflexivity | apply Qle_refl].
  - apply (H3 (client_with (JsNum (inject_Z (Z.of_nat 2)))) params_buffer
             env_429_then_ok 2%nat). reflexivity.
Defined.

(** Instance of [convert_backoff_exponential]: one retry with
    [Math.random() = 0.5] waits 375 ms. *)
Lemma convert_backoff_exponential_witness :
  snd (convert (client_with (JsNum (inject_Z (Z.of_nat 1)))) params_buffer
         (mkEnv fs_all (env_attempt env_429_then_ok) (fun _ => 1 # 2)))
    = [EvSend 0; EvSleep 375; EvSend 1] /\
  exists j, js_floor (js_mul (DFin (1 # 2)) (DFin 150)) = DFin (inject_Z j) /\
    (0 <= j < 150)%Z /\ 375%Z = (300 * 2 ^ Z.of_nat 0 + j)%Z.
Proof.
  split; [vm_compute; reflexivity|].
  destruct (convert_backoff_exponential (client_with (JsNum (inject_Z (Z.of_nat 1))))
              params_buffer (mkEnv fs_all (env_attempt env_429_then_ok) (fun _ => 1 # 2))
              [EvSend 0] [] 375 1 ltac:(vm_compute; reflexivity) ltac:(lia)
              ltac:(split; vm_compute; discriminate))
    as (_ & H).
  exact H.
Defined.
